(** * Markdown converter backend: normaliser, document builder, download

    A shallow embedding of [backend/main.py]:
    - [normalize_markdown_bullets], the line scanner that canonicalises
      bullet glyphs and separates headings from lists;
    - [convert_to_docx]: the line loop that builds headings, paragraphs
      and runs, and the exceptions that end the conversion with status 500;
    - [download_file] and the [temp_files] registry.

    A Python [str] is a sequence of Unicode code points; it is modelled as a
    list of code points ([N]).  The built-ins the code calls
    ([str.splitlines], [str.join], [str.strip], [str.split],
    [str.startswith], [str.replace], the [in] operator) and the five regular
    expressions are written out as functions on such lists. *)

From Stdlib Require Import NArith Ascii String Bool Lia.
From stdpp Require Import base list gmap.

Local Open Scope N_scope.

(** ** Python strings *)

Definition pystr := list N.

(** Literals: an ASCII Rocq string read as code points. *)
Fixpoint py (s : string) : pystr :=
  match s with
  | EmptyString => []
  | String a r => N_of_ascii a :: py r
  end.

Arguments py s%_string.

Definition LF : N := 10.
Definition CR : N := 13.
Definition SPACE : N := 32.
Definition HASH : N := 35.
Definition STAR : N := 42.
Definition PLUS : N := 43.
Definition HYPHEN : N := 45.
Definition DOT : N := 46.
Definition UNDERSCORE : N := 95.
Definition BACKTICK : N := 96.
Definition TILDE : N := 126.

Module Py.

(** [str.isspace] on one character, which is also what [\s] matches in a
    [str] pattern and what [str.strip()] removes: the Unicode white space
    characters. *)
Definition isspace (c : N) : bool :=
  ((9 <=? c) && (c <=? 13)) || ((28 <=? c) && (c <=? 32))
  || (c =? 0x85) || (c =? 0xA0) || (c =? 0x1680)
  || ((0x2000 <=? c) && (c <=? 0x200A))
  || (c =? 0x2028) || (c =? 0x2029) || (c =? 0x202F) || (c =? 0x205F)
  || (c =? 0x3000).

(** The line boundaries of [str.splitlines]: LF, VT, FF, CR, FS, GS, RS,
    NEL, LINE SEPARATOR and PARAGRAPH SEPARATOR (CR LF counts once). *)
Definition is_linebreak (c : N) : bool :=
  ((10 <=? c) && (c <=? 13)) || ((0x1C <=? c) && (c <=? 0x1E))
  || (c =? 0x85) || (c =? 0x2028) || (c =? 0x2029).

Definition truthy (s : pystr) : bool :=
  match s with [] => false | _ :: _ => true end.

Definition str_eqb (a b : pystr) : bool := bool_decide (a = b).

(** Put a character in front of the first line of a list of lines. *)
Definition cons_head (c : N) (ls : list pystr) : list pystr :=
  match ls with
  | [] => [[c]]
  | l :: ls' => (c :: l) :: ls'
  end.

Definition starts_with_LF (s : pystr) : bool :=
  match s with
  | c :: _ => c =? LF
  | [] => false
  end.

(** [s.splitlines()]: the lines of [s] without their terminators; a
    terminator at the very end opens no further line, and a CR directly
    before an LF is part of that LF's terminator. *)
Fixpoint splitlines (s : pystr) : list pystr :=
  match s with
  | [] => []
  | c :: rest =>
      if (c =? CR) && starts_with_LF rest then splitlines rest
      else if is_linebreak c then [] :: splitlines rest
      else cons_head c (splitlines rest)
  end.

(** [str.join] with the separator LF. *)
Fixpoint join_LF (ls : list pystr) : pystr :=
  match ls with
  | [] => []
  | [l] => l
  | l :: ls' => l ++ LF :: join_LF ls'
  end.

(** [s.startswith(p)] *)
Fixpoint startswith (s p : pystr) {struct p} : bool :=
  match p, s with
  | [], _ => true
  | _ :: _, [] => false
  | a :: p', b :: s' => (a =? b) && startswith s' p'
  end.

(** [sub in s] *)
Fixpoint contains (sub s : pystr) : bool :=
  startswith s sub
  || match s with
     | [] => false
     | _ :: s' => contains sub s'
     end.

(** [s.split(sep)] for a non-empty [sep]: cut at each occurrence of [sep],
    found from the left and not overlapping.  [skip] counts the characters
    of an occurrence still to be passed over. *)
Fixpoint split_from (sep : pystr) (skip : nat) (s : pystr) : list pystr :=
  match s with
  | [] => [[]]
  | c :: rest =>
      match skip with
      | S k => split_from sep k rest
      | O =>
          if startswith s sep
          then [] :: split_from sep (Nat.pred (length sep)) rest
          else cons_head c (split_from sep O rest)
      end
  end.

Definition split (s sep : pystr) : list pystr := split_from sep O s.

Fixpoint take_while (p : N -> bool) (s : pystr) : pystr :=
  match s with
  | c :: r => if p c then c :: take_while p r else []
  | [] => []
  end.

Fixpoint drop_while (p : N -> bool) (s : pystr) : pystr :=
  match s with
  | c :: r => if p c then drop_while p r else s
  | [] => []
  end.

Definition lstrip (s : pystr) : pystr := drop_while isspace s.
Definition rstrip (s : pystr) : pystr := rev (drop_while isspace (rev s)).

(** [s.strip()] *)
Definition strip (s : pystr) : pystr := rstrip (lstrip s).

(** [s.replace(a, b)] for one-character [a] and [b]. *)
Definition replace_char (a b : N) (s : pystr) : pystr :=
  map (fun c => if c =? a then b else c) s.

End Py.

(** ** The regular expressions of the normaliser

    Every pattern is anchored with [^] and compiled without flags, so it can
    only match at the start of the string. *)

Module Re.

(** [\s*p]: [p] after some leading white space (any amount the engine may
    settle on after backtracking). *)
Fixpoint after_spaces (p : pystr -> bool) (s : pystr) : bool :=
  p s
  || match s with
     | c :: r => Py.isspace c && after_spaces p r
     | [] => false
     end.

Definition next_is_space (s : pystr) : bool :=
  match s with
  | c :: _ => Py.isspace c
  | [] => false
  end.

(** [fence_pattern = ^\s*(```|~~~)] *)
Definition fence_pattern (s : pystr) : bool :=
  after_spaces
    (fun r => Py.startswith r [BACKTICK; BACKTICK; BACKTICK]
              || Py.startswith r [TILDE; TILDE; TILDE]) s.

(** [#{1,6}\s+] with [budget] more [#] allowed; [seen] tells that one was
    consumed already. *)
Fixpoint hashes_then_space (budget : nat) (seen : bool) (s : pystr) : bool :=
  (seen && next_is_space s)
  || match budget, s with
     | S b, c :: r => (c =? HASH) && hashes_then_space b true r
     | _, _ => false
     end.

(** [heading_pattern = ^\s*#{1,6}\s+] *)
Definition heading_pattern (s : pystr) : bool :=
  after_spaces (hashes_then_space 6 false) s.

Section ListStart.

(** [\d] in a [str] pattern matches every Unicode decimal digit
    (category Nd).  That table belongs to the interpreter's Unicode
    database, not to this program, so the model takes it as a
    parameter. *)
Variable is_decimal : N -> bool.

(** [\d+p] *)
Fixpoint after_digits (p : pystr -> bool) (s : pystr) : bool :=
  match s with
  | c :: r => is_decimal c && (p r || after_digits p r)
  | [] => false
  end.

(** [[-*+]\s] *)
Definition bullet_marker (s : pystr) : bool :=
  match s with
  | c :: r => ((c =? HYPHEN) || (c =? STAR) || (c =? PLUS)) && next_is_space r
  | [] => false
  end.

(** [\.\s] *)
Definition dot_space (s : pystr) : bool :=
  match s with
  | c :: r => (c =? DOT) && next_is_space r
  | [] => false
  end.

(** [list_start_pattern = ^\s*([-*+]\s|\d+\.\s)] *)
Definition list_start_pattern (s : pystr) : bool :=
  after_spaces (fun r => bullet_marker r || after_digits dot_space r) s.

End ListStart.

(** The class [[–—•∙·‣]]: U+2013, U+2014, U+2022, U+2219, U+00B7, U+2023. *)
Definition is_bullet_glyph (c : N) : bool :=
  (c =? 0x2013) || (c =? 0x2014) || (c =? 0x2022) || (c =? 0x2219)
  || (c =? 0xB7) || (c =? 0x2023).

Definition next_is_glyph (s : pystr) : bool :=
  match s with
  | c :: _ => is_bullet_glyph c
  | [] => false
  end.

(** [re.match] of [^\s*[–—•∙·‣]] *)
Definition glyph_match (s : pystr) : bool := after_spaces next_is_glyph s.

(** The [re.sub] with [count=1] whose pattern is: start of string, group 1
    of [\s*], one glyph of the class, [\s*]; the replacement is group 1, a
    hyphen and a space.  No glyph is white space, so group 1 can only be the
    whole run of leading white space. *)
Definition glyph_sub (s : pystr) : pystr :=
  match Py.drop_while Py.isspace s with
  | g :: r =>
      if is_bullet_glyph g
      then Py.take_while Py.isspace s ++ HYPHEN :: SPACE :: Py.drop_while Py.isspace r
      else s
  | [] => s
  end.

Definition not_LF (c : N) : bool := negb (c =? LF).

(** The [re.sub] whose pattern is: start of string, group 1 of [\s*], a
    hyphen, the negative lookahead [(?!\s)], group 2 of [.*], [$]; the
    replacement is group 1, a hyphen, a space and group 2.  The hyphen is
    not white space, so group 1 is the whole leading white space; [.] stops
    at a line feed and [$] holds at the end or before a final line feed,
    which then stays behind the replacement. *)
Definition dash_sub (s : pystr) : pystr :=
  match Py.drop_while Py.isspace s with
  | c :: r =>
      if (c =? HYPHEN) && negb (next_is_space r)
      then
        match Py.drop_while not_LF r with
        | [] => Py.take_while Py.isspace s ++ HYPHEN :: SPACE :: r
        | [_] => Py.take_while Py.isspace s ++ HYPHEN :: SPACE :: r
        | _ :: _ :: _ => s
        end
      else s
  | [] => s
  end.

End Re.

(** ** [normalize_markdown_bullets] *)

(** The variables the [for] loop updates. *)
Record loop_state := LoopState {
  normalized_lines : list pystr;
  inside_code_fence : bool;
  previous_raw_line : pystr
}.

Definition initial_state : loop_state :=
  {| normalized_lines := []; inside_code_fence := false; previous_raw_line := [] |}.

(** [normalized_lines] is not empty and its last element is not the empty
    string. *)
Definition last_not_blank (ls : list pystr) : bool :=
  match last ls with
  | Some l => negb (Py.str_eqb l [])
  | None => false
  end.

(** The two rewrites applied to a line outside a fence. *)
Definition fix_bullet (line : pystr) : pystr :=
  Re.dash_sub (if Re.glyph_match line then Re.glyph_sub line else line).

Section Normalizer.

Variable is_decimal : N -> bool.

(** One turn of [for raw_line in lines]. *)
Definition loop_body (st : loop_state) (raw_line : pystr) : loop_state :=
  if Re.fence_pattern raw_line then
    {| normalized_lines := normalized_lines st ++ [raw_line];
       inside_code_fence := negb (inside_code_fence st);
       previous_raw_line := raw_line |}
  else
    let line :=
      if negb (inside_code_fence st) then fix_bullet raw_line else raw_line in
    let emitted :=
      if negb (inside_code_fence st)
         && (Py.truthy (previous_raw_line st)
             && Re.heading_pattern (previous_raw_line st)
             && Re.list_start_pattern is_decimal line)
         && last_not_blank (normalized_lines st)
      then normalized_lines st ++ [[]]
      else normalized_lines st in
    {| normalized_lines := emitted ++ [line];
       inside_code_fence := inside_code_fence st;
       previous_raw_line := raw_line |}.

Definition run_loop (st : loop_state) (lines : list pystr) : loop_state :=
  fold_left loop_body lines st.

(** The lines the loop leaves in [normalized_lines]. *)
Definition normalize_lines (lines : list pystr) : list pystr :=
  normalized_lines (run_loop initial_state lines).

Definition normalize_markdown_bullets (content : pystr) : pystr :=
  if negb (Py.truthy content) then content
  else Py.join_LF (normalize_lines (Py.splitlines content)).

End Normalizer.

(** The decimal digits of ASCII.  The sample texts below hold no digit
    outside ASCII, so they are run with this table. *)
Definition ascii_digit (c : N) : bool := (48 <=? c) && (c <=? 57).

(** *** Vocabulary of the properties *)

(** The fence is open after [lines] when they hold an odd number of fence
    markers. *)
Definition fence_markers (lines : list pystr) : nat :=
  length (List.filter Re.fence_pattern lines).

Definition fence_open (lines : list pystr) : bool := Nat.odd (fence_markers lines).

(** What becomes of each input line on its own: a marker and a line inside
    a fence stay, any other line gets [fix_bullet].  Written after the
    specification, to be compared with the loop. *)
Fixpoint per_line_transformed (inside : bool) (lines : list pystr) : list pystr :=
  match lines with
  | [] => []
  | l :: ls =>
      if Re.fence_pattern l then l :: per_line_transformed (negb inside) ls
      else (if inside then l else fix_bullet l) :: per_line_transformed inside ls
  end.

(** [blank_lines_inserted ls out]: [out] is [ls] with empty lines put in,
    nothing removed and nothing reordered. *)
Inductive blank_lines_inserted : list pystr -> list pystr -> Prop :=
| bli_done : blank_lines_inserted [] []
| bli_keep l ls out :
    blank_lines_inserted ls out -> blank_lines_inserted (l :: ls) (l :: out)
| bli_blank ls out :
    blank_lines_inserted ls out -> blank_lines_inserted ls ([] :: out).

Definition ends_with_LF (s : pystr) : bool :=
  match last s with
  | Some c => c =? LF
  | None => false
  end.

(** [s] ends with a line boundary that is not a lone CR. *)
Definition ends_with_hard_break (s : pystr) : bool :=
  match last s with
  | Some c => Py.is_linebreak c && negb (c =? CR)
  | None => false
  end.

Definition no_linebreak (l : pystr) : Prop :=
  Forall (fun c => Py.is_linebreak c = false) l.

(** *** Sample inputs *)

(** A fence that is never closed, with a glyph line, a heading and a list
    item inside. *)
Definition open_fence_text : pystr :=
  py "```" ++ LF :: 0x2022 :: py "item" ++ LF :: py "# T" ++ LF :: py "- a".

Definition glyph_item : pystr := 0x2022 :: py "item".

(** A line, then an empty line, each ended by a line feed. *)
Definition two_final_LF : pystr := py "a" ++ [LF; LF].

(** A line ended by a form feed. *)
Definition form_feed_end : pystr := py "a" ++ [12].

(** ** The line loop of [convert_to_docx] *)

(** A run of a paragraph; [run_bold] tells that [bold = True] was set. *)
Record Run := { run_text : pystr; run_bold : bool }.

(** What [doc.add_heading] and [doc.add_paragraph] append to the document. *)
Inductive Block :=
| Heading (text : pystr) (level : nat)
| Paragraph (runs : list Run).

(** The [add_run] calls made for the stripped line [text], in order: the
    text handed to each call and whether [bold = True] is set on the run. *)
Definition add_runs (text : pystr) : list Run :=
  if Py.contains (py "**") text
  then imap (fun i part => {| run_text := part; run_bold := negb (i mod 2 =? 0)%nat |})
            (Py.split text (py "**"))
  else [{| run_text := text; run_bold := false |}].

(** How the endpoint ends: the document was built (it is then saved and
    recorded, and the success message returned), or an exception reached
    [except Exception] and the answer is an HTTP error, with nothing saved
    and nothing recorded. *)
Inductive ConversionOutcome :=
| Generated (doc : list Block)
| Failed (status_code : nat).

Section DocxBuilder.

(** Two things the endpoint calls are not part of this program.  The
    document library hands the text of every heading and run to its XML
    layer and raises [ValueError] for a text that layer does not accept;
    [md.convert] may raise as well.  Which texts are accepted, and on which
    contents the Markdown call returns, are parameters of the model. *)
Variable xml_text_ok : pystr -> bool.
Variable markdown_converts : pystr -> bool.

(** [doc.add_heading(text, level)]; [None] stands for the exception. *)
Definition add_heading (doc : list Block) (text : pystr) (level : nat)
    : option (list Block) :=
  if xml_text_ok text then Some (doc ++ [Heading text level]) else None.

(** [paragraph.add_run(text)], with [bold = True] set on the new run when
    the call asks for it. *)
Definition add_run (paragraph : list Run) (call : Run) : option (list Run) :=
  if xml_text_ok (run_text call) then Some (paragraph ++ [call]) else None.

(** The [add_run] calls on one paragraph, stopped by the first exception. *)
Fixpoint add_run_calls (paragraph : list Run) (calls : list Run)
    : option (list Run) :=
  match calls with
  | [] => Some paragraph
  | call :: rest =>
      match add_run paragraph call with
      | Some paragraph' => add_run_calls paragraph' rest
      | None => None
      end
  end.

(** One turn of [for line in lines], on the document built so far. *)
Definition docx_loop_body (doc : list Block) (raw_line : pystr)
    : option (list Block) :=
  let line := Py.strip raw_line in
  if negb (Py.truthy line) then Some doc
  else if Py.startswith line (py "# ") then add_heading doc (drop 2 line) 1
  else if Py.startswith line (py "## ") then add_heading doc (drop 3 line) 2
  else if Py.startswith line (py "### ") then add_heading doc (drop 4 line) 3
  else if Py.startswith line (py "#### ") then add_heading doc (drop 5 line) 4
  else if Py.startswith line (py "```") then Some doc
  else
    match add_run_calls [] (add_runs line) with
    | Some runs => Some (doc ++ [Paragraph runs])
    | None => None
    end.

(** The [for] loop, left at the first exception. *)
Fixpoint docx_loop (doc : list Block) (lines : list pystr) : option (list Block) :=
  match lines with
  | [] => Some doc
  | raw_line :: rest =>
      match docx_loop_body doc raw_line with
      | Some doc' => docx_loop doc' rest
      | None => None
      end
  end.

(** The body of the [try] up to [doc.save]: the Markdown call, the title
    as a heading of level 0, then the loop over [content.split] at LF. *)
Definition build_document (title content : pystr) : option (list Block) :=
  if negb (markdown_converts content) then None
  else
    match add_heading [] title 0 with
    | Some doc => docx_loop doc (Py.split content [LF])
    | None => None
    end.

(** [convert_to_docx] for a request with a string title: the document, or
    status 500 from the [except] clause. *)
Definition convert_to_docx (title content : pystr) : ConversionOutcome :=
  match build_document title content with
  | Some doc => Generated doc
  | None => Failed 500
  end.

End DocxBuilder.

(** What one line adds to the document when the library accepts its
    texts. *)
Definition docx_line (raw_line : pystr) : list Block :=
  default [] (docx_loop_body (fun _ => true) [] raw_line).

(** The library accepts every text of the block. *)
Definition block_accepted (xml_text_ok : pystr -> bool) (b : Block) : bool :=
  match b with
  | Heading text _ => xml_text_ok text
  | Paragraph runs => forallb (fun r => xml_text_ok (run_text r)) runs
  end.

Definition line_accepted (xml_text_ok : pystr -> bool) (raw_line : pystr) : bool :=
  forallb (block_accepted xml_text_ok) (docx_line raw_line).

(** The texts the XML layer of the document library takes: no NUL, no
    control character other than tab, line feed and carriage return, no
    surrogate, neither U+FFFE nor U+FFFF.  Used for the sample runs. *)
Definition xml_char_ok (c : N) : bool :=
  (c =? 9) || (c =? 10) || (c =? 13)
  || ((32 <=? c) && negb ((0xD800 <=? c) && (c <=? 0xDFFF))
      && negb (c =? 0xFFFE) && negb (c =? 0xFFFF)).

Definition xml_accepts (text : pystr) : bool := forallb xml_char_ok text.

(** The Markdown call returns on the sample texts. *)
Definition markdown_returns (content : pystr) : bool := true.

(** The four heading tests of the loop, on the stripped line. *)
Definition is_docx_heading (line : pystr) : bool :=
  Py.startswith line (py "# ") || Py.startswith line (py "## ")
  || Py.startswith line (py "### ") || Py.startswith line (py "#### ").

(** A [#] repeated [k] times. *)
Definition hashes (k : nat) : pystr := replicate k HASH.

(** ** The registry [temp_files] and [download_file] *)

Record FileInfo := { path : pystr; filename : pystr }.

Inductive Response :=
| HTTPException (status_code : nat) (detail : pystr)
| FileResponse (file_path file_name media_type : pystr).

(** [temp_files[file_id] = ...] at the end of a conversion: the file name
    is the title with each space replaced by an underscore, then the
    extension of the format. *)
Definition store_file_info (temp_files : gmap pystr FileInfo)
    (file_id file_path title extension : pystr) : gmap pystr FileInfo :=
  <[file_id := {| path := file_path;
                  filename := Py.replace_char SPACE UNDERSCORE title ++ extension |}]>
    temp_files.

(** The two places that fill the registry. *)
Definition store_pdf (temp_files : gmap pystr FileInfo)
    (file_id pdf_path title : pystr) : gmap pystr FileInfo :=
  store_file_info temp_files file_id pdf_path title (py ".pdf").

Definition store_docx (temp_files : gmap pystr FileInfo)
    (file_id docx_path title : pystr) : gmap pystr FileInfo :=
  store_file_info temp_files file_id docx_path title (py ".docx").

Section Download.

(** [os.path.exists], the state of the disk at the time of the call. *)
Variable os_path_exists : pystr -> bool.

Definition download_file (temp_files : gmap pystr FileInfo) (file_id : pystr)
    : Response :=
  match temp_files !! file_id with
  | None => HTTPException 404 (py "File not found")
  | Some file_info =>
      if negb (os_path_exists (path file_info))
      then HTTPException 404 (py "File not found on disk")
      else FileResponse (path file_info) (filename file_info)
                        (py "application/octet-stream")
  end.

End Download.

(** ** Further vocabulary *)

(** [sep.join(parts)] *)
Fixpoint join_with (sep : pystr) (parts : list pystr) : pystr :=
  match parts with
  | [] => []
  | [p] => p
  | p :: ps => p ++ sep ++ join_with sep ps
  end.

(** The input lines that match the heading pattern. *)
Definition heading_lines (lines : list pystr) : list pystr :=
  List.filter Re.heading_pattern lines.

(** The first character after the leading white space is a bullet glyph or
    a hyphen. *)
Definition starts_with_marker (l : pystr) : bool :=
  match Py.drop_while Py.isspace l with
  | c :: _ => Re.is_bullet_glyph c || (c =? HYPHEN)
  | [] => false
  end.

Definition heading_level (b : Block) : option nat :=
  match b with
  | Heading _ k => Some k
  | Paragraph _ => None
  end.

(** ** The style overrides of [convert_to_pdf] *)

(** [StyleSettings]: every field may be absent. *)
Record StyleSettings := {
  font_family : option pystr;
  h1_size : option Z;
  h2_size : option Z;
  h3_size : option Z;
  p_size : option Z
}.

Definition default_font_family : pystr :=
  py "-apple-system, BlinkMacSystemFont, 'Segoe UI', 'Roboto', sans-serif".

(** [x if settings and x else default] for an optional integer [x]: the
    settings object is truthy when present, an integer when it is not 0. *)
Definition size_or_default (settings : option StyleSettings)
    (field : StyleSettings -> option Z) (default : Z) : Z :=
  match settings with
  | Some s =>
      match field s with
      | Some n => if (n =? 0)%Z then default else n
      | None => default
      end
  | None => default
  end.

(** The same for the font family, a string, truthy when not empty. *)
Definition font_or_default (settings : option StyleSettings) : pystr :=
  match settings with
  | Some s =>
      match font_family s with
      | Some f => if Py.truthy f then f else default_font_family
      | None => default_font_family
      end
  | None => default_font_family
  end.

(** The five values [ff], [h1s], [h2s], [h3s], [ps] put into the override
    style sheet. *)
Record StyleValues := { ff : pystr; h1s : Z; h2s : Z; h3s : Z; ps : Z }.

Definition style_values (settings : option StyleSettings) : StyleValues :=
  {| ff := font_or_default settings;
     h1s := size_or_default settings h1_size 24;
     h2s := size_or_default settings h2_size 20;
     h3s := size_or_default settings h3_size 16;
     ps := size_or_default settings p_size 12 |}.

(** The resolved values sent back as explicit settings. *)
Definition as_settings (v : StyleValues) : option StyleSettings :=
  Some {| font_family := Some (ff v);
          h1_size := Some (h1s v); h2_size := Some (h2s v);
          h3_size := Some (h3s v); p_size := Some (ps v) |}.

(** * Properties *)

(** ** The built-ins on sample texts *)

Example splitlines_mixed_terminators :
  Py.splitlines (py "a" ++ [LF; CR] ++ py "b" ++ [CR; LF] ++ py "c" ++ [LF; LF]) =
  [py "a"; []; py "b"; py "c"; []].
Proof. reflexivity. Qed.

Example splitlines_unicode_boundaries :
  Py.splitlines (py "a" ++ [12] ++ py "b" ++ [0x2028] ++ py "c" ++ [31] ++ py "d") =
  [py "a"; py "b"; py "c" ++ [31] ++ py "d"].
Proof. reflexivity. Qed.

Example join_then_split :
  Py.split (Py.join_LF [py "a"; []; py "b"]) [LF] = [py "a"; []; py "b"].
Proof. reflexivity. Qed.

Example split_overlapping_stars :
  Py.split (py "a****b***") (py "**") = [py "a"; []; py "b"; py "*"].
Proof. reflexivity. Qed.

Example strip_both_ends : Py.strip ([9; 32] ++ py "a b" ++ [32; 0xA0]) = py "a b".
Proof. reflexivity. Qed.

Example fix_bullet_glyph :
  fix_bullet ([32; 32; 0x2022; 32; 32] ++ py "item") = py "  - item".
Proof. reflexivity. Qed.

Example fix_bullet_tight_dash : fix_bullet (py "-item") = py "- item".
Proof. reflexivity. Qed.

Example heading_up_to_six :
  Re.heading_pattern (py "  ###### x") = true /\ Re.heading_pattern (py "####### x") = false
  /\ Re.heading_pattern (py "#x") = false.
Proof. repeat split; reflexivity. Qed.

Example list_start_numbered :
  Re.list_start_pattern ascii_digit (py " 12. x") = true /\
  Re.list_start_pattern ascii_digit (py "12.x") = false.
Proof. split; reflexivity. Qed.

(** ** Characters *)

Lemma glyph_not_space c : Re.is_bullet_glyph c = true -> Py.isspace c = false.
Proof.
  unfold Re.is_bullet_glyph. rewrite !orb_true_iff, !N.eqb_eq.
  intros H. repeat destruct H as [H|H]; subst c; reflexivity.
Qed.

Lemma linebreak_is_space c : Py.is_linebreak c = true -> Py.isspace c = true.
Proof.
  unfold Py.is_linebreak, Py.isspace.
  rewrite !orb_true_iff, !andb_true_iff, !N.eqb_eq, !N.leb_le.
  intros H. repeat destruct H as [H|H]; try (subst c; tauto).
  - left; left; left; left; left; left; left; left; left; left. lia.
  - left; left; left; left; left; left; left; left; left; right. lia.
Qed.

(** ** Leading white space *)

Lemma take_drop_while p s : Py.take_while p s ++ Py.drop_while p s = s.
Proof. induction s as [|c r IH]; simpl; [done|]. destruct (p c); simpl; by rewrite ?IH. Qed.

Lemma take_while_all p s : Forall (fun c => p c = true) (Py.take_while p s).
Proof.
  induction s as [|c r IH]; simpl; [constructor|].
  destruct (p c) eqn:E; constructor; done.
Qed.

Lemma drop_while_app p ws c r :
  Forall (fun c => p c = true) ws -> p c = false ->
  Py.drop_while p (ws ++ c :: r) = c :: r.
Proof.
  induction 1 as [|d ws Hd _ IH]; simpl; intros Hc.
  - by rewrite Hc.
  - rewrite Hd. by apply IH.
Qed.

Lemma take_while_app p ws c r :
  Forall (fun c => p c = true) ws -> p c = false ->
  Py.take_while p (ws ++ c :: r) = ws.
Proof.
  induction 1 as [|d ws Hd _ IH]; simpl; intros Hc.
  - by rewrite Hc.
  - rewrite Hd. f_equal. by apply IH.
Qed.

(** A pattern element that cannot start with white space is tried at one
    place only: after all the leading white space. *)
Lemma after_spaces_drop (p : pystr -> bool) s :
  (forall c r, Py.isspace c = true -> p (c :: r) = false) ->
  Re.after_spaces p s = p (Py.drop_while Py.isspace s).
Proof.
  intros Hp. induction s as [|c r IH]; simpl.
  - by rewrite orb_false_r.
  - destruct (Py.isspace c) eqn:E; simpl.
    + by rewrite Hp.
    + by rewrite orb_false_r.
Qed.

Lemma fence_pattern_drop s :
  Re.fence_pattern s =
  (let r := Py.drop_while Py.isspace s in
   Py.startswith r [BACKTICK; BACKTICK; BACKTICK] || Py.startswith r [TILDE; TILDE; TILDE]).
Proof.
  unfold Re.fence_pattern. rewrite after_spaces_drop; [done|].
  intros c r Hc. cbn -[N.eqb].
  destruct (BACKTICK =? c) eqn:E1; [apply N.eqb_eq in E1; subst c; done|].
  destruct (TILDE =? c) eqn:E2; [apply N.eqb_eq in E2; subst c; done|].
  done.
Qed.

Lemma heading_pattern_drop s :
  Re.heading_pattern s = Re.hashes_then_space 6 false (Py.drop_while Py.isspace s).
Proof.
  unfold Re.heading_pattern. rewrite after_spaces_drop; [done|].
  intros c r Hc. cbn -[N.eqb].
  destruct (c =? HASH) eqn:E1; [apply N.eqb_eq in E1; subst c; done|done].
Qed.

Lemma glyph_match_drop s :
  Re.glyph_match s = Re.next_is_glyph (Py.drop_while Py.isspace s).
Proof.
  unfold Re.glyph_match. rewrite after_spaces_drop; [done|].
  intros c r Hc. simpl.
  destruct (Re.is_bullet_glyph c) eqn:E; [|done].
  apply glyph_not_space in E. congruence.
Qed.

Lemma drop_while_subset p s c : c ∈ Py.drop_while p s -> c ∈ s.
Proof.
  induction s as [|d s IH]; simpl; [done|].
  destruct (p d); [|done]. intros H. apply elem_of_cons. right. by apply IH.
Qed.

Lemma take_while_subset p s c : c ∈ Py.take_while p s -> c ∈ s.
Proof.
  intros H. rewrite <- (take_drop_while p s). apply elem_of_app. by left.
Qed.

(** ** [fix_bullet] *)

Lemma space_run_then_hyphen ws r :
  Forall (fun c => Py.isspace c = true) ws ->
  Py.drop_while Py.isspace (ws ++ HYPHEN :: r) = HYPHEN :: r /\
  Py.take_while Py.isspace (ws ++ HYPHEN :: r) = ws.
Proof.
  intros H. split; [apply drop_while_app | apply take_while_app]; done.
Qed.

(** A line that starts, after white space, with a hyphen and a space is
    left alone. *)
Lemma fix_bullet_fixed ws r :
  Forall (fun c => Py.isspace c = true) ws ->
  fix_bullet (ws ++ HYPHEN :: SPACE :: r) = ws ++ HYPHEN :: SPACE :: r.
Proof.
  intros H. destruct (space_run_then_hyphen ws (SPACE :: r) H) as [Hd Ht].
  unfold fix_bullet. rewrite glyph_match_drop, Hd. cbn [Re.next_is_glyph].
  change (Re.is_bullet_glyph HYPHEN) with false. cbn iota.
  unfold Re.dash_sub. rewrite Hd. reflexivity.
Qed.

(** A line changed by [fix_bullet] started, after its white space, with a
    glyph or a hyphen, and now starts there with a hyphen and a space. *)
Lemma fix_bullet_cases l :
  fix_bullet l = l \/
  exists g r r',
    Py.drop_while Py.isspace l = g :: r /\
    (Re.is_bullet_glyph g = true \/ g = HYPHEN) /\
    fix_bullet l = Py.take_while Py.isspace l ++ HYPHEN :: SPACE :: r' /\
    (forall c, c ∈ r' -> c ∈ r).
Proof.
  unfold fix_bullet. rewrite glyph_match_drop.
  destruct (Py.drop_while Py.isspace l) as [|g r] eqn:Hd.
  - left. cbn [Re.next_is_glyph]. unfold Re.dash_sub. by rewrite Hd.
  - cbn [Re.next_is_glyph]. destruct (Re.is_bullet_glyph g) eqn:Hg.
    + right. exists g, r, (Py.drop_while Py.isspace r).
      split; [done|]. split; [by left|]. split; [|apply drop_while_subset].
      unfold Re.glyph_sub. rewrite Hd, Hg.
      destruct (space_run_then_hyphen (Py.take_while Py.isspace l)
                  (SPACE :: Py.drop_while Py.isspace r) (take_while_all _ _)) as [Hd' _].
      unfold Re.dash_sub. rewrite Hd'. reflexivity.
    + unfold Re.dash_sub. rewrite Hd.
      destruct ((g =? HYPHEN) && negb (Re.next_is_space r)) eqn:Hc; [|by left].
      apply andb_true_iff in Hc as [Hh _]. apply N.eqb_eq in Hh.
      destruct (Py.drop_while Re.not_LF r) as [|? [|? ?]]; [| |by left];
        right; exists g, r, r; subst g; auto.
Qed.

Lemma fence_pattern_fix l : Re.fence_pattern (fix_bullet l) = Re.fence_pattern l.
Proof.
  destruct (fix_bullet_cases l) as [->|(g & r & r' & Hd & Hg & -> & _)]; [done|].
  rewrite !fence_pattern_drop. cbn zeta.
  destruct (space_run_then_hyphen (Py.take_while Py.isspace l) (SPACE :: r')
              (take_while_all _ _)) as [-> _].
  rewrite Hd. destruct Hg as [Hg| ->]; [|reflexivity].
  unfold Re.is_bullet_glyph in Hg. rewrite !orb_true_iff, !N.eqb_eq in Hg.
  repeat destruct Hg as [Hg|Hg]; subst g; reflexivity.
Qed.

Lemma heading_pattern_fix l : Re.heading_pattern (fix_bullet l) = Re.heading_pattern l.
Proof.
  destruct (fix_bullet_cases l) as [->|(g & r & r' & Hd & Hg & -> & _)]; [done|].
  rewrite !heading_pattern_drop.
  destruct (space_run_then_hyphen (Py.take_while Py.isspace l) (SPACE :: r')
              (take_while_all _ _)) as [-> _].
  rewrite Hd. destruct Hg as [Hg| ->]; [|reflexivity].
  unfold Re.is_bullet_glyph in Hg. rewrite !orb_true_iff, !N.eqb_eq in Hg.
  repeat destruct Hg as [Hg|Hg]; subst g; reflexivity.
Qed.

Lemma fix_bullet_idem l : fix_bullet (fix_bullet l) = fix_bullet l.
Proof.
  destruct (fix_bullet_cases l) as [Hl|(g & r & r' & _ & _ & Hl & _)]; rewrite Hl.
  - exact Hl.
  - apply fix_bullet_fixed, take_while_all.
Qed.

Lemma fix_bullet_chars l c :
  c ∈ fix_bullet l -> c ∈ l \/ c = HYPHEN \/ c = SPACE.
Proof.
  destruct (fix_bullet_cases l) as [->|(g & r & r' & Hd & _ & -> & Hr)]; [auto|].
  rewrite elem_of_app, !elem_of_cons.
  intros [H|[H|[H|H]]]; auto; left.
  - by eapply take_while_subset.
  - apply (drop_while_subset Py.isspace). rewrite Hd. apply elem_of_cons. auto.
Qed.

Lemma fix_bullet_empty : fix_bullet [] = [].
Proof. reflexivity. Qed.

(** ** [str.splitlines] and [str.join] *)


Lemma cons_head_all (P : pystr -> Prop) c ls :
  (forall l, P l -> P (c :: l)) -> P [c] -> Forall P ls -> Forall P (Py.cons_head c ls).
Proof.
  intros H1 H2 H. destruct H as [|l ls Hl Hls]; simpl; constructor; auto.
Qed.

Lemma splitlines_no_linebreak s : Forall no_linebreak (Py.splitlines s).
Proof.
  induction s as [|c r IH]; simpl; [constructor|].
  destruct ((c =? CR) && Py.starts_with_LF r); [done|].
  destruct (Py.is_linebreak c) eqn:E.
  - constructor; [constructor | done].
  - apply cons_head_all; [| |done].
    + intros l Hl. by constructor.
    + by repeat constructor.
Qed.

Lemma splitlines_nonempty s : s <> [] -> Py.splitlines s <> [].
Proof.
  induction s as [|c r IH]; [done|]. intros _. simpl.
  destruct ((c =? CR) && Py.starts_with_LF r) eqn:E.
  - apply IH. apply andb_true_iff in E as [_ E]. by destruct r.
  - destruct (Py.is_linebreak c); [done|]. by destruct (Py.splitlines r).
Qed.

(** A line without boundary characters, followed by LF, is the first line. *)
Lemma splitlines_line_LF l rest :
  no_linebreak l -> Py.splitlines (l ++ LF :: rest) = l :: Py.splitlines rest.
Proof.
  induction 1 as [|c l Hc _ IH]; [reflexivity|].
  cbn [app Py.splitlines].
  replace (c =? CR) with false; [|by destruct (N.eqb_spec c CR) as [->|]].
  cbn [andb]. rewrite Hc, IH. reflexivity.
Qed.

Lemma splitlines_one_line l :
  no_linebreak l -> l <> [] -> Py.splitlines l = [l].
Proof.
  induction 1 as [|c l Hc Hl IH]; [done|]. intros _.
  cbn [Py.splitlines].
  replace (c =? CR) with false; [|by destruct (N.eqb_spec c CR) as [->|]].
  cbn [andb]. rewrite Hc. destruct l as [|d l]; [reflexivity|].
  rewrite IH; done.
Qed.

Lemma splitlines_join ls :
  Forall no_linebreak ls -> last ls <> Some [] -> Py.splitlines (Py.join_LF ls) = ls.
Proof.
  induction 1 as [|l ls Hl Hls IH]; [done|]. intros Hlast.
  destruct ls as [|l' ls].
  - simpl. apply splitlines_one_line; [done|]. intros ->. by apply Hlast.
  - change (Py.join_LF (l :: l' :: ls)) with (l ++ LF :: Py.join_LF (l' :: ls)).
    rewrite splitlines_line_LF by done. f_equal. apply IH. exact Hlast.
Qed.

Lemma join_LF_snoc ls l :
  ls <> [] -> Py.join_LF (ls ++ [l]) = Py.join_LF ls ++ LF :: l.
Proof.
  induction ls as [|x ls IH]; [done|]. intros _.
  destruct ls as [|y ls]; [reflexivity|].
  change (Py.join_LF ((x :: y :: ls) ++ [l])) with (x ++ LF :: Py.join_LF ((y :: ls) ++ [l])).
  rewrite IH by done.
  change (Py.join_LF (x :: y :: ls)) with (x ++ LF :: Py.join_LF (y :: ls)).
  by rewrite <- app_assoc.
Qed.

(** A final LF after a character that ends no line, or after a lone CR,
    adds no line. *)
Lemma splitlines_final_LF s :
  s <> [] -> ends_with_hard_break s = false ->
  Py.splitlines (s ++ [LF]) = Py.splitlines s.
Proof.
  induction s as [|c r IH]; [done|]. intros _ Hend.
  destruct r as [|d r].
  - unfold ends_with_hard_break in Hend. cbn [last] in Hend.
    cbn [app Py.splitlines Py.starts_with_LF].
    destruct (c =? CR) eqn:Hc; [apply N.eqb_eq in Hc as ->; reflexivity|].
    cbn [negb] in Hend. rewrite andb_true_r in Hend.
    cbn [andb]. rewrite Hend. reflexivity.
  - assert (IH' : Py.splitlines ((d :: r) ++ [LF]) = Py.splitlines (d :: r))
      by (apply IH; [done|exact Hend]).
    change ((c :: d :: r) ++ [LF]) with (c :: ((d :: r) ++ [LF])).
    cbn [Py.splitlines] in *. cbn [app Py.starts_with_LF] in *.
    rewrite IH'. reflexivity.
Qed.

(** ** The loop of the normaliser *)

Section NormalizerFacts.

Variable nd : N -> bool.

Lemma run_loop_app st a b :
  run_loop nd st (a ++ b) = run_loop nd (run_loop nd st a) b.
Proof. apply fold_left_app. Qed.

Lemma run_loop_snoc st a l :
  run_loop nd st (a ++ [l]) = loop_body nd (run_loop nd st a) l.
Proof. by rewrite run_loop_app. Qed.

Lemma list_start_empty : Re.list_start_pattern nd [] = false.
Proof. reflexivity. Qed.

Lemma per_line_transformed_cons inside l lines :
  per_line_transformed inside (l :: lines) =
  per_line_transformed inside [l]
  ++ per_line_transformed
       (if Re.fence_pattern l then negb inside else inside) lines.
Proof. cbn [per_line_transformed]. by destruct (Re.fence_pattern l). Qed.

Lemma bli_app a ca b cb :
  blank_lines_inserted a ca -> blank_lines_inserted b cb ->
  blank_lines_inserted (a ++ b) (ca ++ cb).
Proof. induction 1; intros Hb; cbn [app]; [done| |]; constructor; auto. Qed.



Lemma fence_markers_snoc lines l :
  fence_markers (lines ++ [l]) =
  (fence_markers lines + if Re.fence_pattern l then 1 else 0)%nat.
Proof.
  unfold fence_markers. rewrite List.filter_app, length_app. cbn [List.filter].
  by destruct (Re.fence_pattern l).
Qed.

(** What one turn appends to [normalized_lines]. *)
Lemma loop_body_emits st l :
  exists chunk,
    normalized_lines (loop_body nd st l) = normalized_lines st ++ chunk /\
    blank_lines_inserted
      (per_line_transformed (inside_code_fence st) [l]) chunk /\
    inside_code_fence (loop_body nd st l) =
      (if Re.fence_pattern l then negb (inside_code_fence st) else inside_code_fence st).
Proof.
  unfold loop_body. cbn [per_line_transformed].
  destruct (Re.fence_pattern l).
  - exists [l]. repeat split. repeat constructor.
  - cbn zeta. destruct (inside_code_fence st); cbn [negb andb].
    + exists [l]. repeat split. repeat constructor.
    + match goal with |- context [if ?b then _ ++ [[]] else _] => destruct b end.
      * exists [[]; fix_bullet l]. rewrite <- app_assoc. repeat split.
        repeat constructor.
      * exists [fix_bullet l]. repeat split. repeat constructor.
Qed.

Lemma run_loop_emits lines : forall st,
  exists tail,
    normalized_lines (run_loop nd st lines) = normalized_lines st ++ tail /\
    blank_lines_inserted (per_line_transformed (inside_code_fence st) lines) tail.
Proof.
  induction lines as [|l lines IH]; intros st.
  - exists []. split; [by rewrite app_nil_r | constructor].
  - destruct (loop_body_emits st l) as (chunk & Hc & Hb & Hi).
    destruct (IH (loop_body nd st l)) as (tail & Ht & Hbt).
    exists (chunk ++ tail). split.
    + change (run_loop nd st (l :: lines)) with (run_loop nd (loop_body nd st l) lines).
      by rewrite Ht, Hc, app_assoc.
    + rewrite per_line_transformed_cons. apply bli_app; [done|].
      by rewrite <- Hi.
Qed.

Lemma normalize_lines_inserts lines :
  blank_lines_inserted (per_line_transformed false lines) (normalize_lines nd lines).
Proof.
  destruct (run_loop_emits lines initial_state) as (tail & Ht & Hb).
  unfold normalize_lines. by rewrite Ht.
Qed.

(** The output of a prefix stays in front when more lines follow. *)
Lemma normalize_lines_prefix pre post :
  exists tail, normalize_lines nd (pre ++ post) = normalize_lines nd pre ++ tail.
Proof.
  unfold normalize_lines. rewrite run_loop_app.
  destruct (run_loop_emits post (run_loop nd initial_state pre)) as (tail & Ht & _).
  by exists tail.
Qed.

(** The fence flag is the parity of the markers seen. *)
Lemma inside_code_fence_parity lines :
  inside_code_fence (run_loop nd initial_state lines) = fence_open lines.
Proof.
  induction lines as [|l lines IH] using rev_ind; [reflexivity|].
  rewrite run_loop_snoc.
  destruct (loop_body_emits (run_loop nd initial_state lines) l) as (_ & _ & _ & ->).
  rewrite IH. unfold fence_open. rewrite fence_markers_snoc.
  destruct (Re.fence_pattern l).
  - by rewrite Nat.add_1_r, Nat.odd_succ, <- Nat.negb_odd.
  - by rewrite Nat.add_0_r.
Qed.

Lemma previous_raw_line_last lines :
  previous_raw_line (run_loop nd initial_state lines) = default [] (last lines).
Proof.
  destruct lines as [|l lines _] using rev_ind; [reflexivity|].
  rewrite run_loop_snoc, last_snoc. unfold loop_body.
  by destruct (Re.fence_pattern l).
Qed.

(** The last emitted line is the last raw line, as it is or rewritten. *)
Lemma last_emitted lines l :
  last (normalize_lines nd (lines ++ [l])) =
  Some (if Re.fence_pattern l || fence_open lines then l else fix_bullet l).
Proof.
  unfold normalize_lines. rewrite run_loop_snoc. unfold loop_body.
  rewrite inside_code_fence_parity.
  destruct (Re.fence_pattern l); cbn [orb normalized_lines]; [apply last_snoc|].
  rewrite last_snoc. by destruct (fence_open lines).
Qed.

Lemma heading_nonempty p : Re.heading_pattern p = true -> p <> [].
Proof. by intros H ->. Qed.

(** Both patterns that look back agree on the raw line and on what was
    emitted for it. *)
Lemma heading_of_last_emitted lines :
  Re.heading_pattern (default [] (last (normalize_lines nd lines))) =
  Re.heading_pattern (previous_raw_line (run_loop nd initial_state lines)).
Proof.
  rewrite previous_raw_line_last.
  destruct lines as [|l lines _] using rev_ind; [reflexivity|].
  rewrite last_emitted, last_snoc. cbn [default from_option].
  destruct (Re.fence_pattern l || fence_open lines); [done|].
  apply heading_pattern_fix.
Qed.

(** Running the loop over its own output changes nothing. *)
Lemma second_pass lines :
  run_loop nd initial_state (normalize_lines nd lines) =
  {| normalized_lines := normalize_lines nd lines;
     inside_code_fence := inside_code_fence (run_loop nd initial_state lines);
     previous_raw_line := default [] (last (normalize_lines nd lines)) |}.
Proof.
  induction lines as [|l lines IH] using rev_ind; [reflexivity|].
  pose proof (heading_of_last_emitted lines) as Hk.
  unfold normalize_lines in *. rewrite run_loop_snoc.
  set (st := run_loop nd initial_state lines) in *.
  unfold loop_body.
  destruct (Re.fence_pattern l) eqn:Hf.
  - cbn [normalized_lines inside_code_fence].
    rewrite run_loop_snoc, IH, last_snoc. unfold loop_body. rewrite Hf. reflexivity.
  - cbn zeta. destruct (inside_code_fence st) eqn:Hin; cbn [negb andb].
    + cbn [normalized_lines inside_code_fence].
      rewrite run_loop_snoc, IH, last_snoc. unfold loop_body. rewrite Hf.
      cbn [inside_code_fence negb andb normalized_lines]. reflexivity.
    + destruct (Py.truthy (previous_raw_line st)
                && Re.heading_pattern (previous_raw_line st)
                && Re.list_start_pattern nd (fix_bullet l)
                && last_not_blank (normalized_lines st)) eqn:Hc;
        cbn [normalized_lines inside_code_fence].
      * rewrite <- app_assoc. cbn [app].
        rewrite run_loop_app, IH. cbn [run_loop fold_left].
        rewrite last_app. cbn [last]. unfold loop_body at 2.
        change (Re.fence_pattern []) with false. cbn iota.
        cbn [inside_code_fence negb andb normalized_lines previous_raw_line].
        rewrite fix_bullet_empty, list_start_empty, andb_false_r. cbn [andb].
        unfold loop_body. rewrite fence_pattern_fix, Hf.
        cbn [inside_code_fence negb andb normalized_lines previous_raw_line Py.truthy].
        rewrite fix_bullet_idem, <- app_assoc. reflexivity.
      * rewrite run_loop_snoc, IH, last_snoc. unfold loop_body.
        rewrite fence_pattern_fix, Hf.
        cbn [inside_code_fence negb andb normalized_lines previous_raw_line].
        rewrite fix_bullet_idem.
        destruct (Py.truthy (default [] (last (normalized_lines st)))
                  && Re.heading_pattern (default [] (last (normalized_lines st)))
                  && Re.list_start_pattern nd (fix_bullet l)
                  && last_not_blank (normalized_lines st)) eqn:Hc2; [|reflexivity].
        exfalso. rewrite !andb_true_iff in Hc2. destruct Hc2 as [[[_ Hh] Hl] Hb].
        rewrite Hk in Hh. rewrite Hh, Hl, Hb, !andb_true_r in Hc.
        destruct (previous_raw_line st); done.
Qed.

Lemma normalize_lines_idem lines :
  normalize_lines nd (normalize_lines nd lines) = normalize_lines nd lines.
Proof. unfold normalize_lines at 1. by rewrite second_pass. Qed.

Lemma bli_all (P : pystr -> Prop) a ca :
  P [] -> blank_lines_inserted a ca -> Forall P a -> Forall P ca.
Proof.
  intros H0. induction 1; intros Ha; [done| |].
  - inversion Ha; subst. constructor; auto.
  - constructor; auto.
Qed.

Lemma fix_bullet_no_linebreak l : no_linebreak l -> no_linebreak (fix_bullet l).
Proof.
  unfold no_linebreak. rewrite !Forall_forall. intros H c Hc.
  apply fix_bullet_chars in Hc as [Hc|[->| ->]]; auto.
Qed.

Lemma per_line_transformed_no_linebreak inside lines :
  Forall no_linebreak lines -> Forall no_linebreak (per_line_transformed inside lines).
Proof.
  intros H. revert inside. induction H as [|l lines Hl _ IH]; intros inside; [constructor|].
  cbn [per_line_transformed].
  destruct (Re.fence_pattern l); [by constructor|].
  constructor; [|done]. destruct inside; [done|]. by apply fix_bullet_no_linebreak.
Qed.

Lemma normalize_lines_no_linebreak lines :
  Forall no_linebreak lines -> Forall no_linebreak (normalize_lines nd lines).
Proof.
  intros H. eapply bli_all; [constructor | apply normalize_lines_inserts |].
  by apply per_line_transformed_no_linebreak.
Qed.

Lemma normalize_nonempty s :
  s <> [] ->
  normalize_markdown_bullets nd s = Py.join_LF (normalize_lines nd (Py.splitlines s)).
Proof. by destruct s. Qed.

Lemma normalize_as_join s :
  normalize_markdown_bullets nd s = Py.join_LF (normalize_lines nd (Py.splitlines s)).
Proof. destruct s; [reflexivity | by apply normalize_nonempty]. Qed.

End NormalizerFacts.

(** ** [str.split] at LF *)





Lemma ends_with_LF_snoc s : ends_with_LF (s ++ [LF]) = true.
Proof. unfold ends_with_LF. by rewrite last_snoc. Qed.



(** ** The claims about [normalize_markdown_bullets] *)

Section NormalizerClaims.

Variable nd : N -> bool.

(** C1 (fence safety).  The fence flag is the parity of the fence markers
    read so far, nothing else.  A line that is a fence marker, or that is
    read while the flag is set (an odd number of markers before it, up to
    the next marker or to the end of an unterminated fence), is appended
    to the output exactly as it is: no glyph replacement, no space after
    a dash, and no blank line put in front of it. *)
Theorem fence_lines_pass_unchanged
    (s : pystr) (pre : list pystr) (l : pystr) (post : list pystr) :
  Py.splitlines s = pre ++ l :: post ->
  Re.fence_pattern l = true \/ fence_open pre = true ->
  inside_code_fence (run_loop nd initial_state pre) = fence_open pre /\
  inside_code_fence (run_loop nd initial_state (Py.splitlines s)) =
    fence_open (Py.splitlines s) /\
  normalize_lines nd (pre ++ [l]) = normalize_lines nd pre ++ [l] /\
  exists tail,
    normalize_markdown_bullets nd s =
    Py.join_LF (normalize_lines nd pre ++ l :: tail).
Proof.
  intros Hs Hl. rewrite !inside_code_fence_parity. split; [done|]. split; [done|].
  assert (Hone : normalize_lines nd (pre ++ [l]) = normalize_lines nd pre ++ [l]).
  { unfold normalize_lines. rewrite run_loop_snoc. unfold loop_body.
    rewrite inside_code_fence_parity.
    destruct (Re.fence_pattern l); [reflexivity|].
    destruct Hl as [Hl|Hl]; [done|]. rewrite Hl. reflexivity. }
  split; [exact Hone|].
  destruct (normalize_lines_prefix nd (pre ++ [l]) post) as [tail Ht].
  exists tail. rewrite normalize_as_join, Hs.
  replace (pre ++ l :: post) with ((pre ++ [l]) ++ post) by by rewrite <- app_assoc.
  by rewrite Ht, Hone, <- app_assoc.
Qed.


(** C4, amended (blank line between heading and list).  When the fence
    is closed after the previous raw line, that line matches the heading
    pattern, the current line is no fence marker and its rewritten form
    matches the list-start pattern, then one empty line and the rewritten
    line are appended, in this order; the line emitted before is never
    empty here.  The text of a title followed by two items gets its
    blank line. *)
Theorem heading_then_list_gets_one_blank
    (pre : list pystr) (p l : pystr) :
  fence_open (pre ++ [p]) = false ->
  Re.fence_pattern l = false ->
  Re.heading_pattern p = true ->
  Re.list_start_pattern nd (fix_bullet l) = true ->
  last_not_blank (normalize_lines nd (pre ++ [p])) = true /\
  normalize_lines nd (pre ++ [p; l]) =
    normalize_lines nd (pre ++ [p]) ++ [[]; fix_bullet l] /\
  normalize_markdown_bullets nd (py "# Title" ++ LF :: py "- a" ++ LF :: py "- b") =
    py "# Title" ++ LF :: LF :: py "- a" ++ LF :: py "- b".
Proof.
  intros Hopen Hf Hp Hl.
  assert (Hnb : last_not_blank (normalize_lines nd (pre ++ [p])) = true).
  { unfold last_not_blank. rewrite last_emitted.
    assert (Hx : forall x, Re.heading_pattern x = true -> negb (Py.str_eqb x []) = true).
    { intros x Hx. apply heading_nonempty in Hx. unfold Py.str_eqb.
      by rewrite bool_decide_eq_false_2. }
    destruct (Re.fence_pattern p || fence_open pre); apply Hx; [done|].
    by rewrite heading_pattern_fix. }
  split; [exact Hnb|]. split; [|reflexivity].
  replace (pre ++ [p; l]) with ((pre ++ [p]) ++ [l]) by by rewrite <- app_assoc.
  unfold normalize_lines in *. rewrite (run_loop_snoc nd _ (pre ++ [p])).
  unfold loop_body at 1. rewrite Hf, inside_code_fence_parity, Hopen.
  cbn [negb andb]. rewrite previous_raw_line_last, last_snoc. cbn [default from_option]. unfold id.
  rewrite Hp, Hl, Hnb. apply heading_nonempty in Hp.
  destruct p; [done|]. cbn [Py.truthy andb normalized_lines].
  by rewrite <- app_assoc.
Qed.

(** C2, amended (idempotence).  When the normalised text does not end
    with a line feed, normalising it again gives the same text. *)
Theorem normalize_idempotent_without_final_LF (s : pystr) :
  ends_with_LF (normalize_markdown_bullets nd s) = false ->
  normalize_markdown_bullets nd (normalize_markdown_bullets nd s) =
  normalize_markdown_bullets nd s.
Proof.
  rewrite (normalize_as_join nd s).
  set (out := normalize_lines nd (Py.splitlines s)).
  assert (Hout : normalize_lines nd out = out) by apply normalize_lines_idem.
  assert (Hnl : Forall no_linebreak out)
    by apply normalize_lines_no_linebreak, splitlines_no_linebreak.
  clearbody out. intros Hend.
  destruct (Py.join_LF out) as [|c r] eqn:Hj; [reflexivity|].
  rewrite <- Hj. rewrite normalize_as_join.
  rewrite splitlines_join; [by rewrite Hout|done|].
  intros Hlast. destruct out as [|x out _] using rev_ind; [done|].
  rewrite last_snoc in Hlast. injection Hlast as ->.
  destruct out as [|y out]; [done|].
  rewrite join_LF_snoc in Hj by done. rewrite <- Hj in Hend.
  by rewrite ends_with_LF_snoc in Hend.
Qed.

(** C10, amended (final line feed).  A line feed added at the end of a
    text that does not end with a line boundary other than a lone
    carriage return changes nothing in the result; [a] followed by a
    line feed gives [a]. *)
Theorem final_LF_dropped (s : pystr) :
  ends_with_hard_break s = false ->
  normalize_markdown_bullets nd (s ++ [LF]) = normalize_markdown_bullets nd s /\
  normalize_markdown_bullets nd (py "a" ++ [LF]) = py "a".
Proof.
  intros Hend. split; [|reflexivity].
  destruct s as [|c r]; [reflexivity|].
  rewrite !normalize_as_join. by rewrite splitlines_final_LF.
Qed.

End NormalizerClaims.

(** ** The line loop of [convert_to_docx] *)


Lemma split_without_separator sep text :
  Py.contains sep text = false -> Py.split text sep = [text].
Proof.
  unfold Py.split. induction text as [|c r IH]; [reflexivity|].
  cbn [Py.contains Py.split_from]. intros H.
  apply orb_false_iff in H as [-> H]. by rewrite IH.
Qed.

Lemma bold_flag_odd i : negb (i mod 2 =? 0)%nat = Nat.odd i.
Proof.
  destruct (Nat.Even_or_Odd i) as [[k ->]|[k ->]].
  - rewrite (Nat.mul_comm 2 k), Nat.Div0.mod_mul, <- Nat.negb_even, Nat.even_mul.
    by rewrite orb_true_r.
  - rewrite (Nat.add_comm _ 1), (Nat.mul_comm 2 k), Nat.Div0.mod_add.
    by rewrite (Nat.mul_comm k 2), Nat.odd_add_mul_2.
Qed.

(** With or without the delimiter in the line, the runs are the pieces of
    the split, bold at the odd positions. *)
Lemma add_runs_alternate text :
  add_runs text =
  imap (fun i part => {| run_text := part; run_bold := Nat.odd i |})
       (Py.split text (py "**")).
Proof.
  unfold add_runs. destruct (Py.contains (py "**") text) eqn:E.
  - apply imap_ext. intros i part _. by rewrite bold_flag_odd.
  - by rewrite split_without_separator.
Qed.

Lemma imap_run_text (g : nat -> bool) parts :
  map run_text (imap (fun i part => {| run_text := part; run_bold := g i |}) parts) = parts.
Proof.
  revert g. induction parts as [|x parts IH]; intros g; [done|].
  cbn [imap map run_text]. f_equal. apply (IH (fun i => g (S i))).
Qed.


Section DocxFacts.

Variable xml_text_ok : pystr -> bool.
Variable markdown_converts : pystr -> bool.

(** The calls on a paragraph all succeed, or the first refused text ends
    them. *)
Lemma add_run_calls_spec calls : forall paragraph,
  add_run_calls xml_text_ok paragraph calls =
  if forallb (fun r => xml_text_ok (run_text r)) calls
  then Some (paragraph ++ calls) else None.
Proof.
  induction calls as [|call calls IH]; intros paragraph; cbn [add_run_calls forallb].
  - by rewrite app_nil_r.
  - unfold add_run. destruct (xml_text_ok (run_text call)); [|done].
    cbn [andb]. rewrite IH, <- app_assoc. reflexivity.
Qed.

End DocxFacts.

Lemma forallb_always {A} (l : list A) : forallb (fun _ => true) l = true.
Proof. by induction l. Qed.

(** What a line adds, read off the branches of the loop. *)
Lemma docx_line_unfold raw_line :
  docx_line raw_line =
  let line := Py.strip raw_line in
  if negb (Py.truthy line) then []
  else if Py.startswith line (py "# ") then [Heading (drop 2 line) 1]
  else if Py.startswith line (py "## ") then [Heading (drop 3 line) 2]
  else if Py.startswith line (py "### ") then [Heading (drop 4 line) 3]
  else if Py.startswith line (py "#### ") then [Heading (drop 5 line) 4]
  else if Py.startswith line (py "```") then []
  else [Paragraph (add_runs line)].
Proof.
  unfold docx_line, docx_loop_body, add_heading. cbn zeta.
  rewrite add_run_calls_spec, forallb_always.
  repeat match goal with
         | |- context [if ?b then _ else _] => destruct b
         end; reflexivity.
Qed.

Section DocxSteps.

Variable xml_text_ok : pystr -> bool.
Variable markdown_converts : pystr -> bool.

(** One turn of the loop appends what the line adds, or raises when the
    library refuses one of its texts. *)
Lemma docx_loop_body_spec doc raw_line :
  docx_loop_body xml_text_ok doc raw_line =
  if line_accepted xml_text_ok raw_line
  then Some (doc ++ docx_line raw_line) else None.
Proof.
  unfold line_accepted. rewrite docx_line_unfold.
  unfold docx_loop_body, add_heading. cbn zeta. rewrite add_run_calls_spec.
  repeat match goal with
         | |- context [if Py.startswith ?a ?b then _ else _] =>
             destruct (Py.startswith a b)
         | |- context [if negb ?b then _ else _] => destruct (negb b)
         end; cbn [forallb block_accepted app]; rewrite ?andb_true_r, ?app_nil_r;
    try reflexivity;
    match goal with |- context [if ?b then _ else _] => destruct b end; reflexivity.
Qed.

Lemma docx_loop_spec lines : forall doc,
  docx_loop xml_text_ok doc lines =
  if forallb (line_accepted xml_text_ok) lines
  then Some (doc ++ flat_map docx_line lines) else None.
Proof.
  induction lines as [|l lines IH]; intros doc; cbn [docx_loop forallb flat_map].
  - by rewrite app_nil_r.
  - rewrite docx_loop_body_spec.
    destruct (line_accepted xml_text_ok l); [|done].
    cbn [andb]. rewrite IH, <- app_assoc. reflexivity.
Qed.

(** The document exists exactly when the Markdown call returns and the
    library accepts the title and every line; it is then the title followed
    by what each line adds on its own. *)
Lemma build_document_spec title content :
  build_document xml_text_ok markdown_converts title content =
  if markdown_converts content && xml_text_ok title
     && forallb (line_accepted xml_text_ok) (Py.split content [LF])
  then Some (Heading title 0 :: flat_map docx_line (Py.split content [LF]))
  else None.
Proof.
  unfold build_document, add_heading.
  destruct (markdown_converts content); [|done].
  destruct (xml_text_ok title); [|done].
  cbn [negb andb app]. apply docx_loop_spec.
Qed.

Lemma convert_to_docx_generated title content doc :
  convert_to_docx xml_text_ok markdown_converts title content = Generated doc ->
  forallb (line_accepted xml_text_ok) (Py.split content [LF]) = true /\
  doc = Heading title 0 :: flat_map docx_line (Py.split content [LF]).
Proof.
  unfold convert_to_docx. rewrite build_document_spec.
  destruct (markdown_converts content && xml_text_ok title); [|done].
  cbn [andb].
  destruct (forallb (line_accepted xml_text_ok) (Py.split content [LF])); [|done].
  by intros [= <-].
Qed.

Lemma convert_to_docx_refused title content raw_line :
  raw_line ∈ Py.split content [LF] ->
  line_accepted xml_text_ok raw_line = false ->
  convert_to_docx xml_text_ok markdown_converts title content = Failed 500.
Proof.
  intros Hin Hno. unfold convert_to_docx. rewrite build_document_spec.
  replace (forallb (line_accepted xml_text_ok) (Py.split content [LF])) with false.
  - by rewrite andb_false_r.
  - symmetry. apply not_true_is_false. intros Hall.
    rewrite forallb_forall in Hall. apply list_elem_of_In in Hin.
    specialize (Hall _ Hin). congruence.
Qed.

(** C6, amended (fence markers in the editable document).  A line whose
    stripped form starts with three backticks adds nothing to the document
    and never makes the conversion fail.  No other line is dropped on
    account of a fence: a document that is built is the title followed by
    what each line adds on its own, so a line between two markers adds
    what it would add anywhere else. *)
Theorem docx_skips_backtick_marker_lines (title content raw_line : pystr) :
  Py.startswith (Py.strip raw_line) (py "```") = true ->
  docx_line raw_line = [] /\
  (forall doc, docx_loop_body xml_text_ok doc raw_line = Some doc) /\
  (forall doc,
     convert_to_docx xml_text_ok markdown_converts title content = Generated doc ->
     doc = Heading title 0 :: flat_map docx_line (Py.split content [LF])).
Proof.
  intros H.
  assert (Hline : docx_line raw_line = []).
  { rewrite docx_line_unfold. cbn zeta. rewrite H.
    destruct (Py.strip raw_line) as [|c r]; [done|].
    cbn -[N.eqb] in H. apply andb_true_iff in H as [Hc _].
    apply N.eqb_eq in Hc. subst c. reflexivity. }
  split; [exact Hline|]. split.
  - intros doc. rewrite docx_loop_body_spec. unfold line_accepted.
    rewrite Hline. cbn [forallb]. by rewrite app_nil_r.
  - intros doc Hdoc. by apply convert_to_docx_generated in Hdoc as [_ ->].
Qed.

(** C7, amended (bold parity).  Take a line whose stripped form is not
    empty, is not one of the four heading forms and does not start with
    three backticks.  Its runs are the pieces of the stripped line cut at
    each double asterisk, plain at the even positions and bold at the odd
    ones, so with an odd number of delimiters the last piece, which runs to
    the end of the line, is bold.  When the library accepts the text of
    every run, the line adds one paragraph with these runs; when it refuses
    one, the turn raises and a conversion of a content holding the line
    ends with status 500. *)
Theorem paragraph_runs_alternate (raw_line : pystr) :
  Py.strip raw_line <> [] ->
  is_docx_heading (Py.strip raw_line) = false ->
  Py.startswith (Py.strip raw_line) (py "```") = false ->
  (forall doc,
     docx_loop_body xml_text_ok doc raw_line =
     if forallb xml_text_ok (Py.split (Py.strip raw_line) (py "**"))
     then Some (doc ++
            [Paragraph
               (imap (fun i part => {| run_text := part; run_bold := Nat.odd i |})
                     (Py.split (Py.strip raw_line) (py "**")))])
     else None) /\
  (forall title content,
     raw_line ∈ Py.split content [LF] ->
     forallb xml_text_ok (Py.split (Py.strip raw_line) (py "**")) = false ->
     convert_to_docx xml_text_ok markdown_converts title content = Failed 500) /\
  (forall parts rest,
     Py.split (Py.strip raw_line) (py "**") = parts ++ [rest] ->
     Nat.odd (length parts) = true ->
     exists runs,
       docx_line raw_line = [Paragraph (runs ++ [{| run_text := rest; run_bold := true |}])]
       /\ map run_text runs = parts) /\
  docx_line (py "a **b** c") =
    [Paragraph [ {| run_text := py "a "; run_bold := false |};
                 {| run_text := py "b"; run_bold := true |};
                 {| run_text := py " c"; run_bold := false |} ]] /\
  docx_line (py "a **b c") =
    [Paragraph [ {| run_text := py "a "; run_bold := false |};
                 {| run_text := py "b c"; run_bold := true |} ]].
Proof.
  intros Hne Hh Hf.
  assert (Hline : docx_line raw_line = [Paragraph (add_runs (Py.strip raw_line))]).
  { rewrite docx_line_unfold. cbn zeta.
    unfold is_docx_heading in Hh. rewrite !orb_false_iff in Hh.
    destruct Hh as [[[-> ->] ->] ->]. rewrite Hf.
    by destruct (Py.strip raw_line). }
  assert (Hacc : line_accepted xml_text_ok raw_line =
                 forallb xml_text_ok (Py.split (Py.strip raw_line) (py "**"))).
  { unfold line_accepted. rewrite Hline. cbn [forallb block_accepted].
    rewrite andb_true_r, add_runs_alternate.
    generalize (Py.split (Py.strip raw_line) (py "**")).
    generalize Nat.odd. intros g parts. revert g.
    induction parts as [|p parts IH]; intros g; [done|].
    cbn [imap forallb run_text]. f_equal. apply (IH (fun i => g (S i))). }
  split; [|split; [|split; [|split; reflexivity]]].
  - intros doc. rewrite docx_loop_body_spec, Hacc, Hline, add_runs_alternate.
    reflexivity.
  - intros title content Hin Hno. apply (convert_to_docx_refused _ _ raw_line Hin).
    by rewrite Hacc.
  - rewrite Hline, add_runs_alternate.
    intros parts rest -> Hodd. rewrite imap_app. cbn [imap].
    rewrite Nat.add_0_r, Hodd. eexists. split; [reflexivity|].
    apply imap_run_text.
Qed.

(** C8, amended (heading levels).  A line whose stripped form starts with
    one to four [#] and a space adds a heading of that level, with the rest
    of the stripped line as its text, when the library accepts that text;
    when it does not, the turn raises.  A line whose stripped form starts
    with five [#] takes the paragraph branch: it adds a paragraph under the
    same condition on its run texts. *)
Theorem docx_heading_levels (raw_line : pystr) :
  (forall k rest doc,
     (1 <= k <= 4)%nat ->
     Py.strip raw_line = hashes k ++ SPACE :: rest ->
     docx_loop_body xml_text_ok doc raw_line =
     if xml_text_ok rest then Some (doc ++ [Heading rest k]) else None) /\
  (Py.startswith (Py.strip raw_line) (hashes 5) = true ->
   forall doc,
     docx_loop_body xml_text_ok doc raw_line =
     if forallb (fun r => xml_text_ok (run_text r)) (add_runs (Py.strip raw_line))
     then Some (doc ++ [Paragraph (add_runs (Py.strip raw_line))]) else None).
Proof.
  split.
  - intros k rest doc Hk Hs. unfold docx_loop_body, add_heading. cbn zeta. rewrite Hs.
    destruct k as [|[|[|[|[|k]]]]]; try lia; reflexivity.
  - intros H doc. unfold docx_loop_body. cbn zeta. rewrite add_run_calls_spec.
    destruct (Py.strip raw_line) as [|c1 [|c2 [|c3 [|c4 [|c5 r]]]]];
      cbn -[N.eqb] in H; rewrite ?andb_false_r in H; try discriminate H.
    rewrite !andb_true_iff, !N.eqb_eq in H.
    destruct H as (<- & <- & <- & <- & <- & _).
    set (runs := add_runs _).
    destruct (forallb (fun r => xml_text_ok (run_text r)) runs); reflexivity.
Qed.

End DocxSteps.

(** ** [download_file] *)

(** C9 (download).  An identifier that is not in the registry gives the
    404 answer; so does an identifier whose file is no longer on the disk;
    otherwise the file is sent under the recorded name.  The name recorded
    by a conversion is the title with spaces turned into underscores,
    followed by the extension. *)
Theorem download_file_outcomes
    (os_path_exists : pystr -> bool) (temp_files : gmap pystr FileInfo)
    (file_id : pystr) :
  (temp_files !! file_id = None ->
   download_file os_path_exists temp_files file_id =
     HTTPException 404 (py "File not found")) /\
  (forall info,
     temp_files !! file_id = Some info ->
     os_path_exists (path info) = false ->
     download_file os_path_exists temp_files file_id =
       HTTPException 404 (py "File not found on disk")) /\
  (forall info,
     temp_files !! file_id = Some info ->
     os_path_exists (path info) = true ->
     download_file os_path_exists temp_files file_id =
       FileResponse (path info) (filename info) (py "application/octet-stream")) /\
  (forall file_path title,
     os_path_exists file_path = true ->
     download_file os_path_exists
       (store_pdf temp_files file_id file_path title) file_id =
       FileResponse file_path
         (Py.replace_char SPACE UNDERSCORE title ++ py ".pdf")
         (py "application/octet-stream") /\
     download_file os_path_exists
       (store_docx temp_files file_id file_path title) file_id =
       FileResponse file_path
         (Py.replace_char SPACE UNDERSCORE title ++ py ".docx")
         (py "application/octet-stream")).
Proof.
  unfold download_file. repeat split.
  - by intros ->.
  - by intros info -> ->.
  - by intros info -> ->.
  - unfold store_pdf, store_file_info.
    rewrite lookup_insert_eq. cbn [path filename]. by rewrite H.
  - unfold store_docx, store_file_info.
    rewrite lookup_insert_eq. cbn [path filename]. by rewrite H.
Qed.

(** ** Instances and counterexamples *)

Lemma fence_lines_pass_unchanged_witness :
  Py.splitlines open_fence_text = [py "```"] ++ glyph_item :: [py "# T"; py "- a"] /\
  fence_open [py "```"] = true /\
  normalize_lines ascii_digit ([py "```"] ++ [glyph_item]) =
    normalize_lines ascii_digit [py "```"] ++ [glyph_item].
Proof.
  split; [reflexivity|]. split; [reflexivity|].
  apply (fence_lines_pass_unchanged ascii_digit open_fence_text
           [py "```"] glyph_item [py "# T"; py "- a"]);
    [reflexivity | right; reflexivity].
Defined.



Lemma heading_then_list_gets_one_blank_witness :
  normalize_lines ascii_digit ([] ++ [py "# Title"; py "- a"]) =
  normalize_lines ascii_digit ([] ++ [py "# Title"]) ++ [[]; fix_bullet (py "- a")].
Proof.
  apply (heading_then_list_gets_one_blank ascii_digit [] (py "# Title") (py "- a"));
    reflexivity.
Defined.

(** C4 as stated fails inside a fence: the previous raw line is a heading,
    the current line starts a list, the line emitted before is not empty,
    and yet no empty line is put in. *)
Lemma no_blank_inside_fence :
  Re.heading_pattern (py "# T") = true /\
  Re.list_start_pattern ascii_digit (py "- a") = true /\
  last (normalize_lines ascii_digit [py "```"; py "# T"]) = Some (py "# T") /\
  normalize_lines ascii_digit [py "```"; py "# T"; py "- a"] =
    [py "```"; py "# T"; py "- a"] /\
  normalize_markdown_bullets ascii_digit
    (py "```" ++ LF :: py "# T" ++ LF :: py "- a") =
    py "```" ++ LF :: py "# T" ++ LF :: py "- a".
Proof. repeat split; reflexivity. Qed.

Lemma normalize_idempotent_without_final_LF_witness :
  ends_with_LF (normalize_markdown_bullets ascii_digit (py "# T" ++ LF :: glyph_item)) = false /\
  normalize_markdown_bullets ascii_digit
    (normalize_markdown_bullets ascii_digit (py "# T" ++ LF :: glyph_item)) =
  normalize_markdown_bullets ascii_digit (py "# T" ++ LF :: glyph_item).
Proof.
  split; [reflexivity|].
  apply (normalize_idempotent_without_final_LF ascii_digit (py "# T" ++ LF :: glyph_item)).
  reflexivity.
Defined.

(** C2 as stated fails on a text with an empty last line: the first pass
    keeps one line feed at the end, the second pass drops it. *)
Lemma normalize_not_idempotent :
  normalize_markdown_bullets ascii_digit two_final_LF = py "a" ++ [LF] /\
  normalize_markdown_bullets ascii_digit
    (normalize_markdown_bullets ascii_digit two_final_LF) = py "a" /\
  normalize_markdown_bullets ascii_digit
    (normalize_markdown_bullets ascii_digit two_final_LF) <>
  normalize_markdown_bullets ascii_digit two_final_LF.
Proof. repeat split; [reflexivity..|discriminate]. Qed.

Lemma final_LF_dropped_witness :
  ends_with_hard_break (py "a" ++ [CR]) = false /\
  normalize_markdown_bullets ascii_digit ((py "a" ++ [CR]) ++ [LF]) =
  normalize_markdown_bullets ascii_digit (py "a" ++ [CR]).
Proof.
  split; [reflexivity|].
  apply (final_LF_dropped ascii_digit (py "a" ++ [CR])). reflexivity.
Defined.

(** C10 as stated fails after a form feed: the text does not end with a
    line feed, and the added line feed opens an empty last line whose
    separator stays in the result. *)
Lemma final_LF_kept_after_form_feed :
  ends_with_LF form_feed_end = false /\
  normalize_markdown_bullets ascii_digit (form_feed_end ++ [LF]) = py "a" ++ [LF] /\
  normalize_markdown_bullets ascii_digit form_feed_end = py "a" /\
  normalize_markdown_bullets ascii_digit (form_feed_end ++ [LF]) <>
  normalize_markdown_bullets ascii_digit form_feed_end.
Proof. repeat split; [reflexivity..|discriminate]. Qed.

Lemma docx_skips_backtick_marker_lines_witness :
  Py.startswith (Py.strip (py "  ```python")) (py "```") = true /\
  docx_line (py "  ```python") = [].
Proof.
  split; [reflexivity|].
  apply (docx_skips_backtick_marker_lines xml_accepts markdown_returns
           (py "Doc") (py "x") (py "  ```python")).
  reflexivity.
Defined.

(** C6 as stated fails on a fenced block: the markers are skipped, the
    line between them is reproduced as a paragraph; a tilde marker is
    itself reproduced. *)
Lemma docx_keeps_fenced_content :
  convert_to_docx xml_accepts markdown_returns
    (py "Doc") (py "```" ++ LF :: py "x = 1" ++ LF :: py "```") =
    Generated
      [Heading (py "Doc") 0;
       Paragraph [{| run_text := py "x = 1"; run_bold := false |}]] /\
  convert_to_docx xml_accepts markdown_returns
    (py "Doc") (py "~~~" ++ LF :: py "x = 1" ++ LF :: py "~~~") =
    Generated
      [Heading (py "Doc") 0;
       Paragraph [{| run_text := py "~~~"; run_bold := false |}];
       Paragraph [{| run_text := py "x = 1"; run_bold := false |}];
       Paragraph [{| run_text := py "~~~"; run_bold := false |}]].
Proof. split; reflexivity. Qed.

Lemma paragraph_runs_alternate_witness :
  Py.strip (py " a **b c") <> [] /\
  docx_loop_body xml_accepts [] (py " a **b c") =
    Some [Paragraph [ {| run_text := py "a "; run_bold := false |};
                      {| run_text := py "b c"; run_bold := true |} ]].
Proof.
  split; [discriminate|].
  apply (proj1 (paragraph_runs_alternate xml_accepts markdown_returns (py " a **b c")
                  ltac:(discriminate) eq_refl eq_refl) []).
Defined.

(** C7 as stated fails on a line that holds a form feed: it is not blank,
    no heading and no fence marker, yet the library refuses its text, no
    paragraph is made and the conversion ends with status 500. *)
Lemma form_feed_line_fails :
  Py.strip (py "a" ++ 12 :: py "b") = py "a" ++ 12 :: py "b" /\
  is_docx_heading (py "a" ++ 12 :: py "b") = false /\
  Py.startswith (py "a" ++ 12 :: py "b") (py "```") = false /\
  docx_loop_body xml_accepts [Heading (py "Doc") 0] (py "a" ++ 12 :: py "b") = None /\
  convert_to_docx xml_accepts markdown_returns (py "Doc") (py "a" ++ 12 :: py "b") =
    Failed 500.
Proof. repeat split; reflexivity. Qed.

Lemma docx_heading_levels_witness :
  docx_loop_body xml_accepts [] (py "## Heading") = Some [Heading (py "Heading") 2] /\
  docx_loop_body xml_accepts [] (py "##### z") =
    Some [Paragraph [{| run_text := py "##### z"; run_bold := false |}]].
Proof.
  split.
  - apply (proj1 (docx_heading_levels xml_accepts (py "## Heading"))
             2%nat (py "Heading") []); [lia | reflexivity].
  - apply (proj2 (docx_heading_levels xml_accepts (py "##### z")) eq_refl []).
Defined.

(** C8 as stated fails on a line made of a [#] and a space: stripping
    removes the space, and what is left is no heading form.  It also fails
    on a heading whose text holds a form feed: nothing is emitted. *)
Lemma bare_hash_is_paragraph :
  Py.startswith (py "# ") (hashes 1 ++ [SPACE]) = true /\
  docx_loop_body xml_accepts [] (py "# ") =
    Some [Paragraph [{| run_text := py "#"; run_bold := false |}]] /\
  convert_to_docx xml_accepts markdown_returns (py "Doc") (py "# ") =
    Generated [Heading (py "Doc") 0;
               Paragraph [{| run_text := py "#"; run_bold := false |}]] /\
  convert_to_docx xml_accepts markdown_returns (py "Doc") (py "# a" ++ 12 :: py "b") =
    Failed 500.
Proof. repeat split; reflexivity. Qed.

Lemma download_file_outcomes_witness :
  download_file (fun _ => true) (∅ : gmap pystr FileInfo) (py "id") =
    HTTPException 404 (py "File not found") /\
  download_file (fun _ => true)
    (store_pdf ∅ (py "id") (py "/tmp/id.pdf") (py "My Doc")) (py "id") =
    FileResponse (py "/tmp/id.pdf") (py "My_Doc.pdf") (py "application/octet-stream").
Proof.
  split.
  - apply (proj1 (download_file_outcomes (fun _ => true) ∅ (py "id"))).
    apply lookup_empty.
  - apply (proj2 (proj2 (proj2
             (download_file_outcomes (fun _ => true) ∅ (py "id"))))
             (py "/tmp/id.pdf") (py "My Doc")).
    reflexivity.
Defined.

(** * Further properties of the normaliser *)

Lemma join_LF_chars (P : N -> Prop) ls :
  P LF -> Forall (Forall P) ls -> Forall P (Py.join_LF ls).
Proof.
  intros HLF. induction 1 as [|l ls Hl Hls IH]; [constructor|].
  destruct ls as [|l' ls]; [exact Hl|].
  change (Py.join_LF (l :: l' :: ls)) with (l ++ LF :: Py.join_LF (l' :: ls)).
  apply Forall_app. split; [exact Hl|]. constructor; [exact HLF | exact IH].
Qed.

Lemma after_spaces_skip (p : pystr -> bool) ws r :
  Forall (fun c => Py.isspace c = true) ws -> p r = true ->
  Re.after_spaces p (ws ++ r) = true.
Proof.
  induction 1 as [|c ws Hc _ IH]; intros Hp.
  - destruct r; cbn [app Re.after_spaces]; by rewrite Hp.
  - cbn [app Re.after_spaces]. rewrite Hc, IH by done. apply orb_true_r.
Qed.

Lemma last_not_blank_snoc ls l :
  last_not_blank (ls ++ [l]) = negb (Py.str_eqb l []).
Proof. unfold last_not_blank. by rewrite last_snoc. Qed.

Lemma drop_while_none p s :
  Forall (fun c => p c = true) s -> Py.drop_while p s = [].
Proof. induction 1 as [|c s Hc _ IH]; [done|]. cbn [Py.drop_while]. by rewrite Hc. Qed.

Section NormalizerMore.

Variable nd : N -> bool.

(** X1.  Whatever terminators the input uses, the only line boundary
    character left in the output is the line feed. *)
Theorem output_boundaries_are_LF (s : pystr) :
  Forall (fun c => Py.is_linebreak c = false \/ c = LF)
         (normalize_markdown_bullets nd s).
Proof.
  rewrite normalize_as_join. apply join_LF_chars; [by right|].
  pose proof (normalize_lines_no_linebreak nd _ (splitlines_no_linebreak s)) as H.
  eapply Forall_impl; [exact H|]. intros l Hl.
  eapply Forall_impl; [exact Hl|]. intros c Hc. by left.
Qed.

Lemma run_loop_no_heading lines : forall st,
  Re.heading_pattern (previous_raw_line st) = false ->
  heading_lines lines = [] ->
  normalized_lines (run_loop nd st lines) =
  normalized_lines st ++ per_line_transformed (inside_code_fence st) lines.
Proof.
  induction lines as [|l lines IH]; intros st Hprev Hnone.
  - cbn. by rewrite app_nil_r.
  - unfold heading_lines in Hnone. cbn [List.filter] in Hnone.
    destruct (Re.heading_pattern l) eqn:Hl; [done|].
    change (run_loop nd st (l :: lines)) with (run_loop nd (loop_body nd st l) lines).
    cbn [per_line_transformed]. unfold loop_body.
    destruct (Re.fence_pattern l).
    + rewrite IH by done. cbn [normalized_lines inside_code_fence].
      by rewrite <- app_assoc.
    + cbn zeta. rewrite Hprev, andb_false_r, andb_false_l, andb_false_r.
      rewrite IH by done. cbn [normalized_lines inside_code_fence].
      rewrite <- app_assoc. by destruct (inside_code_fence st).
Qed.

(** X2.  A text without heading lines gets no blank line: the output lines
    are the input lines, each rewritten on its own. *)
Theorem no_heading_no_blank_line (lines : list pystr) :
  heading_lines lines = [] ->
  normalize_lines nd lines = per_line_transformed false lines.
Proof. intros H. unfold normalize_lines. by rewrite run_loop_no_heading. Qed.

Lemma run_loop_length lines : forall st,
  (length (normalized_lines (run_loop nd st lines)) <=
   length (normalized_lines st) + length lines + length (heading_lines lines)
   + (if Re.heading_pattern (previous_raw_line st) then 1 else 0))%nat.
Proof.
  induction lines as [|l lines IH]; intros st.
  - cbn. lia.
  - change (run_loop nd st (l :: lines)) with (run_loop nd (loop_body nd st l) lines).
    specialize (IH (loop_body nd st l)).
    assert (Hp : previous_raw_line (loop_body nd st l) = l)
      by (unfold loop_body; by destruct (Re.fence_pattern l)).
    rewrite Hp in IH.
    assert (Hout : (length (normalized_lines (loop_body nd st l)) <=
                    length (normalized_lines st) + 1
                    + (if Re.heading_pattern (previous_raw_line st) then 1 else 0))%nat).
    { unfold loop_body. destruct (Re.fence_pattern l);
        cbn [normalized_lines]; [rewrite length_app; cbn; lia|].
      destruct (Re.heading_pattern (previous_raw_line st)).
      - match goal with |- context [if ?b then _ ++ [[]] else _] => destruct b end;
          rewrite !length_app; cbn; lia.
      - rewrite andb_false_r, andb_false_l, andb_false_r.
        rewrite length_app. cbn. lia. }
    unfold heading_lines in *. cbn [List.filter length].
    destruct (Re.heading_pattern l); cbn [length]; lia.
Qed.

(** X3.  At most one blank line is inserted per heading line: the output
    has no more lines than the input lines plus the heading lines. *)
Theorem inserted_blanks_bounded (lines : list pystr) :
  (length (normalize_lines nd lines) <=
   length lines + length (heading_lines lines))%nat.
Proof.
  pose proof (run_loop_length lines initial_state) as H.
  cbn in H. unfold normalize_lines. lia.
Qed.

(** X7.  The line loop run over its own output lines changes nothing, for
    every list of lines. *)
Theorem normalize_lines_twice (lines : list pystr) :
  normalize_lines nd (normalize_lines nd lines) = normalize_lines nd lines.
Proof. apply normalize_lines_idem. Qed.

(** X8.  What was emitted for the lines read so far stays in front,
    whatever lines follow. *)
Theorem output_of_prefix_is_prefix (pre post : list pystr) :
  normalize_lines nd pre `prefix_of` normalize_lines nd (pre ++ post).
Proof.
  destruct (normalize_lines_prefix nd pre post) as [tail ->]. by exists tail.
Qed.

(** Two states with the same fence flag emit the same lines when the
    blank-line test cannot tell them apart: either no previous line is a
    heading, or they agree on the previous line and on whether the last
    emitted line is blank. *)
Lemma run_loop_same_tail lines : forall st st',
  inside_code_fence st = inside_code_fence st' ->
  (Re.heading_pattern (previous_raw_line st) = false /\
   Re.heading_pattern (previous_raw_line st') = false) \/
  (previous_raw_line st = previous_raw_line st' /\
   last_not_blank (normalized_lines st) = last_not_blank (normalized_lines st')) ->
  exists tail,
    normalized_lines (run_loop nd st lines) = normalized_lines st ++ tail /\
    normalized_lines (run_loop nd st' lines) = normalized_lines st' ++ tail.
Proof.
  induction lines as [|l lines IH]; intros st st' Hin Hrel.
  - exists []. by rewrite !app_nil_r.
  - change (run_loop nd st (l :: lines)) with (run_loop nd (loop_body nd st l) lines).
    change (run_loop nd st' (l :: lines)) with (run_loop nd (loop_body nd st' l) lines).
    assert (Hstep : exists chunk x,
      normalized_lines (loop_body nd st l) = (normalized_lines st ++ chunk) ++ [x] /\
      normalized_lines (loop_body nd st' l) = (normalized_lines st' ++ chunk) ++ [x] /\
      inside_code_fence (loop_body nd st l) = inside_code_fence (loop_body nd st' l) /\
      previous_raw_line (loop_body nd st l) = previous_raw_line (loop_body nd st' l)).
    { unfold loop_body. rewrite <- Hin.
      destruct (Re.fence_pattern l).
      - exists [], l. by rewrite !app_nil_r.
      - cbn zeta.
        set (line := if negb (inside_code_fence st) then fix_bullet l else l).
        assert (Hc : (negb (inside_code_fence st)
                 && (Py.truthy (previous_raw_line st)
                     && Re.heading_pattern (previous_raw_line st)
                     && Re.list_start_pattern nd line)
                 && last_not_blank (normalized_lines st)) =
                (negb (inside_code_fence st)
                 && (Py.truthy (previous_raw_line st')
                     && Re.heading_pattern (previous_raw_line st')
                     && Re.list_start_pattern nd line)
                 && last_not_blank (normalized_lines st'))).
        { destruct Hrel as [[E1 E2]|[E1 E2]]; rewrite E1, E2; [|done].
          by destruct (negb (inside_code_fence st)),
               (Py.truthy (previous_raw_line st)),
               (Py.truthy (previous_raw_line st')). }
        rewrite <- Hc.
        match goal with |- context [if ?b then _ ++ [[]] else _] => destruct b end.
        + exists [[]], line. cbn [normalized_lines inside_code_fence previous_raw_line].
          repeat split.
        + exists [], line. cbn [normalized_lines inside_code_fence previous_raw_line].
          rewrite !app_nil_r. repeat split. }
    destruct Hstep as (chunk & x & H1 & H2 & H3 & H4).
    destruct (IH (loop_body nd st l) (loop_body nd st' l) H3) as (tail & T1 & T2).
    { right. split; [exact H4|]. by rewrite H1, H2, !last_not_blank_snoc. }
    exists (chunk ++ [x] ++ tail). rewrite T1, T2, H1, H2.
    by rewrite <- !app_assoc.
Qed.

(** X9.  After lines that leave the fence closed and do not end with a
    heading, the lines that follow are treated as if they stood alone. *)
Theorem normalize_lines_piecewise (a b : list pystr) :
  fence_open a = false ->
  Re.heading_pattern (default [] (last a)) = false ->
  normalize_lines nd (a ++ b) = normalize_lines nd a ++ normalize_lines nd b.
Proof.
  intros Hopen Hlast. unfold normalize_lines. rewrite run_loop_app.
  destruct (run_loop_same_tail b (run_loop nd initial_state a) initial_state)
    as (tail & T1 & T2).
  - by rewrite inside_code_fence_parity.
  - left. by rewrite previous_raw_line_last.
  - rewrite T1, T2. reflexivity.
Qed.

End NormalizerMore.

(** * Further properties of [fix_bullet] *)

Lemma marker_after_spaces l g r :
  Py.drop_while Py.isspace l = g :: r ->
  Re.is_bullet_glyph g = true \/ g = HYPHEN ->
  starts_with_marker l = true.
Proof.
  intros Hd Hg. unfold starts_with_marker. rewrite Hd.
  destruct Hg as [->| ->]; [done|]. apply orb_true_r.
Qed.

(** X4.  A line is rewritten only if its first character after the
    indentation is a bullet glyph or a hyphen; in particular no fence
    marker and no heading is ever rewritten. *)
Theorem fix_bullet_leaves_other_lines (l : pystr) :
  starts_with_marker l = false \/ Re.fence_pattern l = true
  \/ Re.heading_pattern l = true ->
  fix_bullet l = l.
Proof.
  intros H.
  destruct (fix_bullet_cases l) as [Hl|(g & r & r' & Hd & Hg & Hl & _)]; [exact Hl|].
  exfalso. destruct H as [H|[H|H]].
  - by rewrite (marker_after_spaces l g r Hd Hg) in H.
  - rewrite fence_pattern_drop in H. cbn zeta in H. rewrite Hd in H.
    destruct Hg as [Hg| ->]; [|discriminate H].
    unfold Re.is_bullet_glyph in Hg. rewrite !orb_true_iff, !N.eqb_eq in Hg.
    repeat destruct Hg as [Hg|Hg]; subst g; discriminate H.
  - rewrite heading_pattern_drop, Hd in H.
    destruct Hg as [Hg| ->]; [|discriminate H].
    unfold Re.is_bullet_glyph in Hg. rewrite !orb_true_iff, !N.eqb_eq in Hg.
    repeat destruct Hg as [Hg|Hg]; subst g; discriminate H.
Qed.

Section FixBulletMore.

Variable nd : N -> bool.

Lemma list_start_hyphen_space ws r :
  Forall (fun c => Py.isspace c = true) ws ->
  Re.next_is_space r = true ->
  Re.list_start_pattern nd (ws ++ HYPHEN :: r) = true.
Proof.
  intros Hws Hr. unfold Re.list_start_pattern.
  apply after_spaces_skip; [done|].
  cbn -[N.eqb]. change (HYPHEN =? HYPHEN) with true. cbn [orb andb]. by rewrite Hr.
Qed.

(** X5.  A single line that starts, after its indentation, with a bullet
    glyph or a hyphen comes out as a list item: the list-start pattern
    matches the rewritten line and no glyph is left in front. *)
Theorem marker_line_becomes_list_item (l : pystr) :
  starts_with_marker l = true ->
  Forall (fun c => c <> LF) l ->
  Re.list_start_pattern nd (fix_bullet l) = true /\
  Re.glyph_match (fix_bullet l) = false.
Proof.
  intros Hm HLF.
  assert (Hform : exists r,
    fix_bullet l = Py.take_while Py.isspace l ++ HYPHEN :: r /\ Re.next_is_space r = true).
  { unfold starts_with_marker in Hm. unfold fix_bullet. rewrite glyph_match_drop.
    destruct (Py.drop_while Py.isspace l) as [|c r] eqn:Hd; [done|].
    cbn [Re.next_is_glyph]. destruct (Re.is_bullet_glyph c) eqn:Hg.
    - exists (SPACE :: Py.drop_while Py.isspace r). split; [|reflexivity].
      unfold Re.glyph_sub. rewrite Hd, Hg.
      destruct (space_run_then_hyphen (Py.take_while Py.isspace l)
                  (SPACE :: Py.drop_while Py.isspace r) (take_while_all _ _)) as [Hd' _].
      unfold Re.dash_sub. rewrite Hd'. reflexivity.
    - cbn [orb] in Hm. apply N.eqb_eq in Hm. subst c.
      unfold Re.dash_sub. rewrite Hd. change (HYPHEN =? HYPHEN) with true. cbn [andb].
      destruct (Re.next_is_space r) eqn:Hr; cbn [negb].
      + exists r. split; [|exact Hr]. rewrite <- Hd. symmetry. apply take_drop_while.
      + exists (SPACE :: r). split; [|reflexivity].
        assert (HrLF : Forall (fun c => c <> LF) r).
        { rewrite <- (take_drop_while Py.isspace l), Hd in HLF.
          apply Forall_app in HLF as [_ HLF]. by inversion HLF. }
        rewrite drop_while_none; [reflexivity|].
        eapply Forall_impl; [exact HrLF|]. intros c Hc. unfold Re.not_LF.
        by destruct (N.eqb_spec c LF). }
  destruct Hform as (r & -> & Hr). split.
  - apply list_start_hyphen_space; [apply take_while_all | exact Hr].
  - rewrite glyph_match_drop.
    destruct (space_run_then_hyphen (Py.take_while Py.isspace l) r
                (take_while_all _ _)) as [-> _].
    reflexivity.
Qed.

End FixBulletMore.

(** X6.  The rewrite of a line keeps its indentation, never makes or
    unmakes a fence marker or a heading, and applied twice does what it
    does once. *)
Theorem fix_bullet_keeps_shape (l : pystr) :
  Py.take_while Py.isspace (fix_bullet l) = Py.take_while Py.isspace l /\
  Re.fence_pattern (fix_bullet l) = Re.fence_pattern l /\
  Re.heading_pattern (fix_bullet l) = Re.heading_pattern l /\
  fix_bullet (fix_bullet l) = fix_bullet l.
Proof.
  split; [|split; [apply fence_pattern_fix|split;
                   [apply heading_pattern_fix|apply fix_bullet_idem]]].
  destruct (fix_bullet_cases l) as [->|(g & r & r' & _ & _ & -> & _)]; [done|].
  apply (space_run_then_hyphen _ (SPACE :: r')), take_while_all.
Qed.

(** * Further properties of the document builder *)

Lemma split_from_nonempty sep s : forall k, Py.split_from sep k s <> [].
Proof.
  induction s as [|c r IH]; intros k; [done|]. cbn [Py.split_from].
  destruct k; [|apply IH].
  destruct (Py.startswith (c :: r) sep); [done|].
  by destruct (Py.split_from sep 0 r).
Qed.

Lemma join_with_cons sep p parts :
  parts <> [] -> join_with sep (p :: parts) = p ++ sep ++ join_with sep parts.
Proof. by destruct parts. Qed.

Lemma join_with_cons_head sep c parts :
  parts <> [] -> join_with sep (Py.cons_head c parts) = c :: join_with sep parts.
Proof. destruct parts as [|p [|q parts]]; done. Qed.

Lemma startswith_split s sep :
  Py.startswith s sep = true -> s = sep ++ drop (length sep) s.
Proof.
  revert s. induction sep as [|a sep IH]; intros s H; [done|].
  destruct s as [|b s]; [done|]. cbn -[N.eqb] in H.
  apply andb_true_iff in H as [Hab H]. apply N.eqb_eq in Hab. subst b.
  cbn [length drop app]. f_equal. by apply IH.
Qed.

Lemma join_split_from sep s : forall k,
  sep <> [] -> join_with sep (Py.split_from sep k s) = drop k s.
Proof.
  induction s as [|c r IH]; intros k Hsep; [by destruct k|].
  cbn [Py.split_from]. destruct k as [|k]; [|by rewrite IH].
  destruct (Py.startswith (c :: r) sep) eqn:E.
  - rewrite join_with_cons by apply split_from_nonempty.
    rewrite IH by done. apply startswith_split in E.
    destruct sep as [|a sep]; [done|]. simpl in E |- *. by symmetry.
  - rewrite join_with_cons_head by apply split_from_nonempty.
    by rewrite IH.
Qed.

(** X10.  Splitting a line into runs loses nothing: the run texts, with
    the double asterisks put back between them, are the line. *)
Theorem runs_rebuild_line (text : pystr) :
  join_with (py "**") (map run_text (add_runs text)) = text.
Proof.
  rewrite add_runs_alternate, imap_run_text.
  unfold Py.split. by rewrite join_split_from.
Qed.

Lemma docx_line_short raw_line : (length (docx_line raw_line) <= 1)%nat.
Proof.
  rewrite docx_line_unfold. cbn zeta.
  repeat match goal with
         | |- context [if ?b then _ else _] => destruct b
         end; cbn; lia.
Qed.

Lemma flat_map_short {A B} (f : A -> list B) l :
  (forall x, length (f x) <= 1)%nat -> (length (flat_map f l) <= length l)%nat.
Proof.
  intros H. induction l as [|x l IH]; [done|].
  cbn [flat_map]. rewrite length_app. specialize (H x). cbn [length]. lia.
Qed.

Lemma docx_line_levels raw_line :
  Forall (fun b => forall k, heading_level b = Some k -> (1 <= k <= 4)%nat)
         (docx_line raw_line).
Proof.
  rewrite docx_line_unfold. cbn zeta.
  repeat match goal with
         | |- context [if ?b then _ else _] => destruct b
         end; cbn [app];
    first [ solve [constructor]
          | constructor;
            [ intros k Hk; cbn in Hk;
              first [discriminate Hk | injection Hk as <-; lia]
            | constructor ] ].
Qed.

Section DocxMore.

Variable xml_text_ok : pystr -> bool.
Variable markdown_converts : pystr -> bool.

(** X11.  A document that is built has at most one block per line of the
    content, after the title. *)
Theorem docx_one_block_per_line (title content : pystr) (doc : list Block) :
  convert_to_docx xml_text_ok markdown_converts title content = Generated doc ->
  (length doc <= 1 + length (Py.split content [LF]))%nat.
Proof.
  intros H. apply convert_to_docx_generated in H as [_ ->]. cbn [length].
  pose proof (flat_map_short docx_line (Py.split content [LF]) docx_line_short). lia.
Qed.

(** X12.  In a document that is built the title is the first block and
    the only heading of level 0; every heading made from the content has a
    level from 1 to 4. *)
Theorem docx_heading_levels_bounded (title content : pystr) (doc : list Block) :
  convert_to_docx xml_text_ok markdown_converts title content = Generated doc ->
  exists body,
    doc = Heading title 0 :: body /\
    Forall (fun b => forall k, heading_level b = Some k -> (1 <= k <= 4)%nat) body.
Proof.
  intros H. apply convert_to_docx_generated in H as [_ ->].
  eexists. split; [reflexivity|].
  induction (Py.split content [LF]) as [|l ls IH]; [constructor|].
  cbn [flat_map]. apply Forall_app. split; [apply docx_line_levels | exact IH].
Qed.

End DocxMore.

Lemma cons_head_app c a b :
  a <> [] -> Py.cons_head c (a ++ b) = Py.cons_head c a ++ b.
Proof. by destruct a. Qed.

Lemma split_LF_app a b :
  Py.split (a ++ LF :: b) [LF] = Py.split a [LF] ++ Py.split b [LF].
Proof.
  unfold Py.split. induction a as [|c a IH]; [reflexivity|].
  cbn [app Py.split_from Py.startswith length Nat.pred].
  destruct ((LF =? c) && true).
  - by rewrite IH.
  - rewrite IH. apply cons_head_app, split_from_nonempty.
Qed.

Section DocxConcatenation.

Variable xml_text_ok : pystr -> bool.
Variable markdown_converts : pystr -> bool.

(** X13.  Two contents put together with a line feed: when the three
    documents are built, the document of the whole is the document of the
    first followed by the blocks of the second. *)
Theorem docx_of_concatenation (title a b : pystr) (doc_ab doc_a doc_b : list Block) :
  convert_to_docx xml_text_ok markdown_converts title (a ++ LF :: b) = Generated doc_ab ->
  convert_to_docx xml_text_ok markdown_converts title a = Generated doc_a ->
  convert_to_docx xml_text_ok markdown_converts title b = Generated doc_b ->
  doc_ab = doc_a ++ drop 1 doc_b.
Proof.
  intros Hab Ha Hb.
  apply convert_to_docx_generated in Hab as [_ ->].
  apply convert_to_docx_generated in Ha as [_ ->].
  apply convert_to_docx_generated in Hb as [_ ->].
  rewrite split_LF_app, flat_map_app. reflexivity.
Qed.

(** X20.  The conversion is all or nothing: when the Markdown call
    returns and the library accepts the title and the texts of every line,
    the document is the title followed by what each line adds; in every
    other case the answer is status 500 and there is no document, however
    many lines were fine. *)
Theorem convert_to_docx_all_or_nothing (title content : pystr) :
  convert_to_docx xml_text_ok markdown_converts title content =
  if markdown_converts content && xml_text_ok title
     && forallb (line_accepted xml_text_ok) (Py.split content [LF])
  then Generated (Heading title 0 :: flat_map docx_line (Py.split content [LF]))
  else Failed 500.
Proof.
  unfold convert_to_docx. rewrite build_document_spec.
  by destruct (markdown_converts content && xml_text_ok title
               && forallb (line_accepted xml_text_ok) (Py.split content [LF])).
Qed.

End DocxConcatenation.

(** * Further properties of the registry *)

Section RegistryMore.

Variable os_path_exists : pystr -> bool.

(** X14.  Recording a file under one identifier changes the answer for no
    other identifier. *)
Theorem store_keeps_other_downloads
    (temp_files : gmap pystr FileInfo)
    (file_id file_path title extension other : pystr) :
  file_id <> other ->
  download_file os_path_exists
    (store_file_info temp_files file_id file_path title extension) other =
  download_file os_path_exists temp_files other.
Proof.
  intros Hne. unfold download_file, store_file_info.
  by rewrite lookup_insert_ne.
Qed.

(** X15.  Recording twice under the same identifier keeps the second
    record only. *)
Theorem store_twice_keeps_last
    (temp_files : gmap pystr FileInfo)
    (file_id path1 title1 ext1 path2 title2 ext2 : pystr) :
  store_file_info
    (store_file_info temp_files file_id path1 title1 ext1)
    file_id path2 title2 ext2 =
  store_file_info temp_files file_id path2 title2 ext2.
Proof. unfold store_file_info. apply insert_insert_eq. Qed.

End RegistryMore.

Lemma replace_char_lookup a b s i :
  Py.replace_char a b s !! i = (fun c => if c =? a then b else c) <$> s !! i.
Proof. unfold Py.replace_char. apply list_lookup_fmap. Qed.

(** X16.  The file name recorded for a title is the title, character by
    character, with every space turned into an underscore, followed by the
    extension: same length, no space left, every other character in its
    place. *)
Theorem recorded_file_name
    (temp_files : gmap pystr FileInfo) (file_id file_path title extension : pystr) :
  exists name,
    store_file_info temp_files file_id file_path title extension !! file_id =
      Some {| path := file_path; filename := name ++ extension |} /\
    length name = length title /\
    (SPACE ∉ name) /\
    (forall i c, title !! i = Some c ->
       name !! i = Some (if c =? SPACE then UNDERSCORE else c)).
Proof.
  exists (Py.replace_char SPACE UNDERSCORE title).
  split; [|split; [|split]].
  - unfold store_file_info. apply lookup_insert_eq.
  - unfold Py.replace_char. apply length_map.
  - unfold Py.replace_char. intros H. apply list_elem_of_fmap in H as (c & Hc & _).
    destruct (c =? SPACE) eqn:E; [discriminate Hc|].
    subst c. by rewrite N.eqb_refl in E.
  - intros i c Hc. by rewrite replace_char_lookup, Hc.
Qed.

(** * Properties of the style overrides *)

Lemma size_or_default_nonzero settings field default :
  default <> 0%Z -> size_or_default settings field default <> 0%Z.
Proof.
  intros Hd. unfold size_or_default.
  destruct settings as [s|]; [|done]. destruct (field s) as [n|]; [|done].
  by destruct (Z.eqb_spec n 0).
Qed.

Lemma font_or_default_nonempty settings : font_or_default settings <> [].
Proof.
  unfold font_or_default.
  destruct settings as [s|]; [|done]. destruct (font_family s) as [f|]; [|done].
  by destruct f.
Qed.

(** X17.  Whatever the request asks for, no font size put into the style
    sheet is 0 and the font family is not empty: a size of 0 and an empty
    family give way to the defaults. *)
Theorem style_values_never_empty (settings : option StyleSettings) :
  h1s (style_values settings) <> 0%Z /\
  h2s (style_values settings) <> 0%Z /\
  h3s (style_values settings) <> 0%Z /\
  ps (style_values settings) <> 0%Z /\
  ff (style_values settings) <> [] /\
  style_values None =
    {| ff := default_font_family; h1s := 24; h2s := 20; h3s := 16; ps := 12 |} /\
  style_values
    (Some {| font_family := Some []; h1_size := Some 0%Z; h2_size := Some 0%Z;
             h3_size := Some 0%Z; p_size := Some 0%Z |}) =
    {| ff := default_font_family; h1s := 24; h2s := 20; h3s := 16; ps := 12 |}.
Proof.
  split; [by apply size_or_default_nonzero|].
  split; [by apply size_or_default_nonzero|].
  split; [by apply size_or_default_nonzero|].
  split; [by apply size_or_default_nonzero|].
  split; [apply font_or_default_nonempty|split; reflexivity].
Qed.

Lemma size_or_default_again v n default :
  n <> 0%Z ->
  size_or_default (as_settings v) (fun _ => Some n) default = n.
Proof. intros Hn. cbn. by destruct (Z.eqb_spec n 0). Qed.

(** X18.  Sending the resolved values back as explicit settings resolves
    to the same values. *)
Theorem style_values_stable (settings : option StyleSettings) :
  style_values (as_settings (style_values settings)) = style_values settings.
Proof.
  assert (H1 : h1s (style_values settings) <> 0%Z) by by apply size_or_default_nonzero.
  assert (H2 : h2s (style_values settings) <> 0%Z) by by apply size_or_default_nonzero.
  assert (H3 : h3s (style_values settings) <> 0%Z) by by apply size_or_default_nonzero.
  assert (H4 : ps (style_values settings) <> 0%Z) by by apply size_or_default_nonzero.
  assert (H5 : ff (style_values settings) <> []) by apply font_or_default_nonempty.
  destruct (style_values settings) as [f a b c d] eqn:E.
  cbn [h1s h2s h3s ps ff] in *.
  unfold style_values, size_or_default, font_or_default, as_settings.
  cbn [font_family h1_size h2_size h3_size p_size ff h1s h2s h3s ps].
  destruct (Z.eqb_spec a 0), (Z.eqb_spec b 0), (Z.eqb_spec c 0), (Z.eqb_spec d 0);
    try done.
  by destruct f.
Qed.

(** * A whole fenced block *)

Section FencedBlock.

Variable nd : N -> bool.

Lemma line_under_open_fence pre l :
  Re.fence_pattern l = true \/ fence_open pre = true ->
  normalize_lines nd (pre ++ [l]) = normalize_lines nd pre ++ [l].
Proof.
  intros Hl. unfold normalize_lines. rewrite run_loop_snoc. unfold loop_body.
  rewrite inside_code_fence_parity.
  destruct (Re.fence_pattern l); [reflexivity|].
  destruct Hl as [Hl|Hl]; [done|]. rewrite Hl. reflexivity.
Qed.

Lemma fence_open_after_marker pre f body :
  fence_open pre = false -> Re.fence_pattern f = true ->
  Forall (fun l => Re.fence_pattern l = false) body ->
  fence_open (pre ++ f :: body) = true.
Proof.
  intros Hpre Hf Hbody. unfold fence_open, fence_markers in *.
  rewrite List.filter_app, length_app. cbn [List.filter]. rewrite Hf.
  replace (List.filter Re.fence_pattern body) with (@nil pystr).
  - cbn [length]. rewrite Nat.add_1_r, Nat.odd_succ, <- Nat.negb_odd, Hpre. done.
  - induction Hbody as [|l body Hl _ IH]; [done|]. cbn [List.filter]. by rewrite Hl.
Qed.

(** X19.  A fenced block as a whole: after a marker that opens a fence,
    the lines up to the next marker come out exactly as they went in, in
    front of whatever the rest of the text gives. *)
Theorem fenced_block_unchanged (pre : list pystr) (f : pystr) (body post : list pystr) :
  fence_open pre = false ->
  Re.fence_pattern f = true ->
  Forall (fun l => Re.fence_pattern l = false) body ->
  normalize_lines nd pre ++ f :: body `prefix_of`
    normalize_lines nd (pre ++ f :: body ++ post).
Proof.
  intros Hpre Hf Hbody.
  assert (Hblock : normalize_lines nd (pre ++ f :: body) =
                   normalize_lines nd pre ++ f :: body).
  { induction body as [|l body IH] using rev_ind.
    - apply line_under_open_fence. by left.
    - apply Forall_app in Hbody as [Hbody _].
      replace (pre ++ f :: body ++ [l]) with ((pre ++ f :: body) ++ [l])
        by by rewrite <- app_assoc.
      rewrite line_under_open_fence, IH by
        (try done; right; by apply fence_open_after_marker).
      by rewrite <- app_assoc. }
  rewrite <- Hblock.
  replace (pre ++ f :: body ++ post) with ((pre ++ f :: body) ++ post)
    by by rewrite <- app_assoc.
  destruct (normalize_lines_prefix nd (pre ++ f :: body) post) as [tail ->].
  by exists tail.
Qed.

End FencedBlock.

(** * Instances of the further properties *)

Lemma fenced_block_unchanged_witness :
  fence_open [py "x"] = false /\
  normalize_lines ascii_digit [py "x"] ++ py "~~~" :: [glyph_item; py "# T"; py "-a"]
    `prefix_of`
  normalize_lines ascii_digit
    ([py "x"] ++ py "~~~" :: [glyph_item; py "# T"; py "-a"] ++ [py "~~~"; py "-b"]).
Proof.
  split; [reflexivity|].
  apply (fenced_block_unchanged ascii_digit [py "x"] (py "~~~")
           [glyph_item; py "# T"; py "-a"] [py "~~~"; py "-b"]);
    [reflexivity | reflexivity | repeat constructor].
Defined.


Lemma no_heading_no_blank_line_witness :
  heading_lines [py "-a"; py "b"] = [] /\
  normalize_lines ascii_digit [py "-a"; py "b"] =
  per_line_transformed false [py "-a"; py "b"].
Proof.
  split; [reflexivity|].
  apply (no_heading_no_blank_line ascii_digit [py "-a"; py "b"]). reflexivity.
Defined.

Lemma fix_bullet_leaves_other_lines_witness :
  Re.heading_pattern (py "## -x") = true /\ fix_bullet (py "## -x") = py "## -x".
Proof.
  split; [reflexivity|].
  apply (fix_bullet_leaves_other_lines (py "## -x")). right. right. reflexivity.
Defined.

Lemma marker_line_becomes_list_item_witness :
  starts_with_marker (py "---") = true /\
  Re.list_start_pattern ascii_digit (fix_bullet (py "---")) = true /\
  Re.glyph_match (fix_bullet (py "---")) = false.
Proof.
  split; [reflexivity|].
  apply (marker_line_becomes_list_item ascii_digit (py "---")); [reflexivity|].
  repeat constructor; discriminate.
Defined.

Lemma normalize_lines_piecewise_witness :
  fence_open [py "# T"; []] = false /\
  normalize_lines ascii_digit ([py "# T"; []] ++ [py "- a"]) =
  normalize_lines ascii_digit [py "# T"; []] ++ normalize_lines ascii_digit [py "- a"].
Proof.
  split; [reflexivity|].
  apply (normalize_lines_piecewise ascii_digit [py "# T"; []] [py "- a"]); reflexivity.
Defined.

Lemma store_keeps_other_downloads_witness :
  py "a" <> py "b" /\
  download_file (fun _ => true)
    (store_file_info ∅ (py "a") (py "/tmp/a.pdf") (py "T") (py ".pdf")) (py "b") =
  download_file (fun _ => true) ∅ (py "b").
Proof.
  split; [discriminate|].
  apply (store_keeps_other_downloads (fun _ => true) ∅ (py "a") (py "/tmp/a.pdf")
           (py "T") (py ".pdf") (py "b")).
  discriminate.
Defined.

Lemma docx_one_block_per_line_witness :
  convert_to_docx xml_accepts markdown_returns (py "Doc") (py "# A" ++ LF :: LF :: py "b") =
    Generated [Heading (py "Doc") 0; Heading (py "A") 1;
               Paragraph [{| run_text := py "b"; run_bold := false |}]] /\
  (3 <= 1 + length (Py.split (py "# A" ++ LF :: LF :: py "b") [LF]))%nat.
Proof.
  split; [reflexivity|].
  apply (docx_one_block_per_line xml_accepts markdown_returns (py "Doc")
           (py "# A" ++ LF :: LF :: py "b")
           [Heading (py "Doc") 0; Heading (py "A") 1;
            Paragraph [{| run_text := py "b"; run_bold := false |}]]).
  reflexivity.
Defined.

Lemma docx_heading_levels_bounded_witness :
  exists body,
    [Heading (py "Doc") 0; Heading (py "A") 4] = Heading (py "Doc") 0 :: body /\
    Forall (fun b => forall k, heading_level b = Some k -> (1 <= k <= 4)%nat) body.
Proof.
  apply (docx_heading_levels_bounded xml_accepts markdown_returns (py "Doc")
           (py "#### A") [Heading (py "Doc") 0; Heading (py "A") 4]).
  reflexivity.
Defined.

Lemma docx_of_concatenation_witness :
  [Heading (py "Doc") 0; Heading (py "A") 1;
   Paragraph [{| run_text := py "b"; run_bold := false |}]] =
  [Heading (py "Doc") 0; Heading (py "A") 1]
  ++ drop 1 [Heading (py "Doc") 0;
             Paragraph [{| run_text := py "b"; run_bold := false |}]].
Proof.
  apply (docx_of_concatenation xml_accepts markdown_returns (py "Doc")
           (py "# A") (py "b")); reflexivity.
Defined.
